(** * Freight quote service: distance resolution and pricing

    A shallow embedding of [quote_api.py] (the Mapbox-backed quoting API)
    together with the properties of its pricing and distance pipeline.

    Modelling conventions.
    - Python [float] values are modelled by the real numbers [R]: the
      arithmetic of the source is read as exact arithmetic, so binary64
      rounding error is outside the model.  [round(x, n)] is decimal
      round-half-to-even, as CPython computes it on the exact value.
      What does depend on how doubles round, the agreement of the
      rounded amounts of a quote, is stated on binary64 itself, in the
      module [Binary64].
    - Python [str] is modelled by [string]; [str.lower] acts on the ASCII
      letters, which is all that matters for the comparisons made here.
    - A Python exception is a value of [pyexn], carried by the [result]
      monad; [try_except] is the [try: ... except Exception:] block.
    - The outside world (the environment variable holding the credential,
      the HTTP exchange with the routing service, the clock, the textual
      formatting of floats) enters as Section variables. *)

From Stdlib Require Import Reals Lra Lia ZArith List String Ascii Bool.
From Stdlib Require Import DecimalString.
From Stdlib Require PrimFloat SpecFloat FloatOps Uint63.
Import ListNotations.

Open Scope string_scope.
Open Scope R_scope.

(** ** Python exceptions as an error monad *)

Inductive pyexn : Set :=
| KeyError
| ValueError
| TypeError
| RequestException
| JSONDecodeError.

Inductive result (A : Type) : Type :=
| Ok (a : A)
| Raise (e : pyexn).

Arguments Ok {A} a.
Arguments Raise {A} e.

Definition bind {A B : Type} (m : result A) (k : A -> result B) : result B :=
  match m with
  | Ok a => k a
  | Raise e => Raise e
  end.

Notation "x <- m ;; k" := (bind m (fun x => k))
  (at level 61, m at next level, right associativity).

(** [try: body  except Exception as e: handler e] *)
Definition try_except {A : Type} (body : result A) (handler : pyexn -> result A)
  : result A :=
  match body with
  | Ok a => Ok a
  | Raise e => handler e
  end.

(** Subscripting a value that may lack the key: [d[k]]. *)
Definition getitem {A : Type} (v : option A) : result A :=
  match v with
  | Some a => Ok a
  | None => Raise KeyError
  end.

(** ** Strings *)

(** [str.lower] on one character. *)
Definition lower_ascii (c : ascii) : ascii :=
  let n := nat_of_ascii c in
  if (65 <=? n)%nat && (n <=? 90)%nat then ascii_of_nat (n + 32) else c.

Fixpoint str_lower (s : string) : string :=
  match s with
  | EmptyString => EmptyString
  | String c rest => String (lower_ascii c) (str_lower rest)
  end.

(** [s.replace(" ", "_")]: both pattern and replacement are one character. *)
Fixpoint replace_space_underscore (s : string) : string :=
  match s with
  | EmptyString => EmptyString
  | String c rest =>
      String (if Ascii.eqb c " " then "_"%char else c)
             (replace_space_underscore rest)
  end.

(** [x in xs] for a list of strings. *)
Definition str_in (x : string) (xs : list string) : bool :=
  existsb (String.eqb x) xs.

(** [str(n)] for an [int]. *)
Definition str_of_Z (n : Z) : string :=
  NilZero.string_of_int (Z.to_int n).

(** ** The ZIP code table *)

Record Location : Type := mkLocation {
  city : string;
  state : string;
  lat : R;
  lon : R
}.

Definition ZIP_DATABASE : list (string * Location) :=
  [
    ("10001", mkLocation "New York" "NY" 40.7128 (-74.0060));
    ("90001", mkLocation "Los Angeles" "CA" 34.0522 (-118.2437));
    ("90021", mkLocation "Los Angeles" "CA" 34.0407 (-118.2468));
    ("60601", mkLocation "Chicago" "IL" 41.8781 (-87.6298));
    ("77001", mkLocation "Houston" "TX" 29.7604 (-95.3698));
    ("77002", mkLocation "Houston" "TX" 29.7589 (-95.3677));
    ("85001", mkLocation "Phoenix" "AZ" 33.4484 (-112.0740));
    ("19103", mkLocation "Philadelphia" "PA" 39.9526 (-75.1652));
    ("78205", mkLocation "San Antonio" "TX" 29.4241 (-98.4936));
    ("78701", mkLocation "Austin" "TX" 30.2672 (-97.7431));
    ("78702", mkLocation "Austin" "TX" 30.2586 (-97.7242));
    ("92101", mkLocation "San Diego" "CA" 32.7157 (-117.1611));
    ("75201", mkLocation "Dallas" "TX" 32.7767 (-96.7970));
    ("95113", mkLocation "San Jose" "CA" 37.3382 (-121.8863));
    ("32202", mkLocation "Jacksonville" "FL" 30.3322 (-81.6557));
    ("76102", mkLocation "Fort Worth" "TX" 32.7555 (-97.3308));
    ("43215", mkLocation "Columbus" "OH" 39.9612 (-82.9988));
    ("28202", mkLocation "Charlotte" "NC" 35.2271 (-80.8431));
    ("94102", mkLocation "San Francisco" "CA" 37.7749 (-122.4194));
    ("46204", mkLocation "Indianapolis" "IN" 39.7684 (-86.1581));
    ("98101", mkLocation "Seattle" "WA" 47.6062 (-122.3321));
    ("80202", mkLocation "Denver" "CO" 39.7392 (-104.9903));
    ("20001", mkLocation "Washington" "DC" 38.9072 (-77.0369));
    ("02108", mkLocation "Boston" "MA" 42.3601 (-71.0589));
    ("79901", mkLocation "El Paso" "TX" 31.7619 (-106.4850));
    ("37219", mkLocation "Nashville" "TN" 36.1627 (-86.7816));
    ("48226", mkLocation "Detroit" "MI" 42.3314 (-83.0458));
    ("73102", mkLocation "Oklahoma City" "OK" 35.4676 (-97.5164));
    ("97201", mkLocation "Portland" "OR" 45.5152 (-122.6784));
    ("89101", mkLocation "Las Vegas" "NV" 36.1699 (-115.1398));
    ("38103", mkLocation "Memphis" "TN" 35.1495 (-90.0490));
    ("40202", mkLocation "Louisville" "KY" 38.2527 (-85.7585));
    ("21201", mkLocation "Baltimore" "MD" 39.2904 (-76.6122));
    ("53202", mkLocation "Milwaukee" "WI" 43.0389 (-87.9065));
    ("07102", mkLocation "Newark" "NJ" 40.7357 (-74.1724));
    ("87102", mkLocation "Albuquerque" "NM" 35.0844 (-106.6504));
    ("85701", mkLocation "Tucson" "AZ" 32.2226 (-110.9747));
    ("93721", mkLocation "Fresno" "CA" 36.7378 (-119.7871));
    ("95814", mkLocation "Sacramento" "CA" 38.5816 (-121.4944));
    ("64106", mkLocation "Kansas City" "MO" 39.0997 (-94.5786));
    ("85201", mkLocation "Mesa" "AZ" 33.4152 (-111.8315));
    ("30303", mkLocation "Atlanta" "GA" 33.7490 (-84.3880));
    ("68102", mkLocation "Omaha" "NE" 41.2565 (-95.9345));
    ("80903", mkLocation "Colorado Springs" "CO" 38.8339 (-104.8214));
    ("27601", mkLocation "Raleigh" "NC" 35.7796 (-78.6382));
    ("90802", mkLocation "Long Beach" "CA" 33.7701 (-118.1937));
    ("23451", mkLocation "Virginia Beach" "VA" 36.8529 (-75.9780));
    ("94612", mkLocation "Oakland" "CA" 37.8044 (-122.2711));
    ("55401", mkLocation "Minneapolis" "MN" 44.9778 (-93.2650));
    ("74103", mkLocation "Tulsa" "OK" 36.1540 (-95.9928));
    ("67202", mkLocation "Wichita" "KS" 37.6872 (-97.3301));
    ("70112", mkLocation "New Orleans" "LA" 29.9511 (-90.0715));
    ("33602", mkLocation "Tampa" "FL" 27.9506 (-82.4572))
  ].

(** [z in ZIP_DATABASE] *)
Definition zip_in_db (z : string) : bool :=
  str_in z (map fst ZIP_DATABASE).

(** [ZIP_DATABASE.get(z)] *)
Definition zip_get (z : string) : option Location :=
  option_map snd (find (fun kv => String.eqb z (fst kv)) ZIP_DATABASE).

(** [ZIP_DATABASE[z]] *)
Definition zip_getitem (z : string) : result Location :=
  getitem (zip_get z).

(** ** The [math] module *)

Definition math_radians (x : R) : R := x * (PI / 180).

Definition math_sin (x : R) : R := sin x.
Definition math_cos (x : R) : R := cos x.

(** [math.sqrt] raises [ValueError] on a negative argument. *)
Definition math_sqrt (x : R) : result R :=
  if Rlt_dec x 0 then Raise ValueError else Ok (sqrt x).

(** [math.asin] raises [ValueError] outside [-1, 1]. *)
Definition math_asin (x : R) : result R :=
  if Rlt_dec x (-1) then Raise ValueError
  else if Rlt_dec 1 x then Raise ValueError
  else Ok (asin x).

(** [math.ceil]: the least integer not below [x]. *)
Definition math_ceil (x : R) : Z := (- Int_part (- x))%Z.

(** [max(a, b)] and [min(a, b)] as the builtins decide them: the first
    argument is kept unless the second is strictly better. *)
Definition py_max (a b : R) : R := if Rlt_dec a b then b else a.
Definition py_maxZ (a b : Z) : Z := if (a <? b)%Z then b else a.
Definition py_minZ (a b : Z) : Z := if (b <? a)%Z then b else a.

Definition py_abs (x : R) : R := if Rlt_dec x 0 then - x else x.

(** Round half to even, to an integer. *)
Definition round_half_even (y : R) : Z :=
  let f := Int_part y in
  let r := y - IZR f in
  if Rlt_dec r (1 / 2) then f
  else if Rlt_dec (1 / 2) r then (f + 1)%Z
  else if Z.even f then f else (f + 1)%Z.

(** [round(x, ndigits)] for [ndigits >= 0], on the exact value.  The
    rounding of a double is [Binary64.f64_round]. *)
Definition py_round (x : R) (ndigits : nat) : R :=
  IZR (round_half_even (x * 10 ^ ndigits)) / 10 ^ ndigits.

(** ** Data model *)

Record DimensionsModel : Type := mkDimensions {
  length : R;
  width : R;
  height : R
}.

Record QuoteRequest : Type := mkQuoteRequest {
  origin_zip : string;
  destination_zip : string;
  weight_lbs : R;
  pieces : Z;
  dimensions : DimensionsModel;
  special_services : list string;
  pickup_date : string;
  commodity : string
}.

Record CostBreakdown : Type := mkCostBreakdown {
  base_rate : R;
  fuel_surcharge : R;
  liftgate_fee : R;
  insurance : R;
  climate_control_fee : R
}.

Record QuoteResponse : Type := mkQuoteResponse {
  quote_id : string;
  total_cost : R;
  breakdown : CostBreakdown;
  transit_days : Z;
  equipment_type : string;
  valid_until : string;
  terms : string;
  distance_miles : R;
  duration_hours : R;
  route_map_url : option string
}.

(** The field constraints that pydantic enforces on a [QuoteRequest]. *)
Definition is_digit (c : ascii) : bool :=
  let n := nat_of_ascii c in (48 <=? n)%nat && (n <=? 57)%nat.

Fixpoint all_digits (s : string) : bool :=
  match s with
  | EmptyString => true
  | String c rest => is_digit c && all_digits rest
  end.

Definition is_zip5 (s : string) : bool :=
  (String.length s =? 5)%nat && all_digits s.

Definition valid_request (req : QuoteRequest) : Prop :=
  is_zip5 (origin_zip req) = true /\
  is_zip5 (destination_zip req) = true /\
  0 < weight_lbs req <= 50000 /\
  (0 < pieces req <= 100)%Z /\
  0 < length (dimensions req) /\
  0 < width (dimensions req) /\
  0 < height (dimensions req).

(** *** The routing service as the code sees it *)

(** A GeoJSON geometry object; the Python value is this or [None]. *)
Record GeoJSON : Type := mkGeoJSON {
  geo_type : string;
  geo_coordinates : list (R * R)
}.

Definition Geometry : Type := option GeoJSON.

(** Truth value of a geometry: [None] is false, a GeoJSON object (a
    dictionary with keys) is true. *)
Definition geometry_truthy (g : Geometry) : bool :=
  match g with
  | Some _ => true
  | None => false
  end.

(** One entry of [data['routes']].  A field is [None] when subscripting it
    or computing with it raises (key missing, value not a number).  A
    figure that is there is a finite number: the infinities and [NaN],
    which the parser of the answer also accepts, are not modelled. *)
Record Route : Type := mkRoute {
  route_distance : option R;
  route_duration : option R;
  route_geometry_field : option Geometry
}.

(** What [response.json()] gives: it raises, or it is an object whose
    ['routes'] entry is the given list (empty when missing or falsy). *)
Inductive Body : Type :=
| BadBody
| Routes (rs : list Route).

(** What [requests.get] gives: it raises, or it returns a response. *)
Inductive HttpOutcome : Type :=
| RequestFailed
| Response (status_code : Z) (body : Body).

Definition response_json (b : Body) : result (list Route) :=
  match b with
  | BadBody => Raise JSONDecodeError
  | Routes rs => Ok rs
  end.

(** The dictionary returned by the distance functions. *)
Record DistanceResult : Type := mkDistanceResult {
  dr_distance_miles : R;
  dr_duration_hours : R;
  dr_route_geometry : Geometry
}.

(** ** Distance resolution: the haversine fallback *)

(** The quantity [a] of the haversine formula, from coordinates in
    radians. *)
Definition haversine_a (lat1 lon1 lat2 lon2 : R) : R :=
  let dlat := lat2 - lat1 in
  let dlon := lon2 - lon1 in
  math_sin (dlat / 2) ^ 2
  + math_cos lat1 * math_cos lat2 * math_sin (dlon / 2) ^ 2.

Definition fallback_distance_calculation (origin_zip dest_zip : string)
  : result DistanceResult :=
  if negb (zip_in_db origin_zip) || negb (zip_in_db dest_zip) then
    Ok (mkDistanceResult 1000.0 16.0 None)
  else
    loc1 <- zip_getitem origin_zip ;;
    loc2 <- zip_getitem dest_zip ;;
    let lat1 := math_radians (lat loc1) in
    let lon1 := math_radians (lon loc1) in
    let lat2 := math_radians (lat loc2) in
    let lon2 := math_radians (lon loc2) in
    let a := haversine_a lat1 lon1 lat2 lon2 in
    root <- math_sqrt a ;;
    angle <- math_asin root ;;
    let c := 2 * angle in
    let distance_miles := 3959 * c in
    let duration_hours := distance_miles / 60 in
    Ok (mkDistanceResult distance_miles duration_hours None).

(** ** Pricing rules *)

(** [[s.lower().replace(" ", "_") for s in services]] *)
Definition normalized_services (services : list string) : list string :=
  map (fun s => replace_space_underscore (str_lower s)) services.

(** The values [calculate_quote] computes between resolving the distance
    and building the response, before any rounding. *)
Record Pricing : Type := mkPricing {
  p_base_rate : R;
  p_fuel_surcharge : R;
  p_liftgate_fee : R;
  p_climate_control_fee : R;
  p_insurance : R;
  p_total_cost : R;
  p_transit_days : Z;
  p_equipment_type : string
}.

Definition price (request : QuoteRequest) (distance duration_hours : R)
  : Pricing :=
  let base_rate := (distance * 2.0) + (weight_lbs request * 0.50) in
  let base_rate := py_max base_rate 500.0 in
  let fuel_surcharge := base_rate * 0.15 in
  let liftgate_fee :=
    if str_in "liftgate" (special_services request) then 75.0 else 0.0 in
  let climate_control_fee :=
    if str_in "climate_control" (normalized_services (special_services request))
    then 150.0 else 0.0 in
  let declared_value := (weight_lbs request / 100) * 5000 in
  let insurance := declared_value * 0.025 in
  let total_cost :=
    base_rate + fuel_surcharge + liftgate_fee + climate_control_fee + insurance in
  let transit_days :=
    py_maxZ 1 (py_minZ 7 (math_ceil (duration_hours / 8))) in
  let equipment_type :=
    if Rlt_dec 10000 (weight_lbs request) then "flatbed"
    else if str_in "climate_control"
                   (normalized_services (special_services request))
    then "reefer"
    else "dry_van" in
  mkPricing base_rate fuel_surcharge liftgate_fee climate_control_fee
            insurance total_cost transit_days equipment_type.

(** ** The service in its environment *)

Section QuoteService.

(** [os.getenv("MAPBOX_API_KEY")] *)
Variable MAPBOX_API_KEY : option string.

(** How an f-string renders a float. *)
Variable float_str : R -> string.

(** [requests.get(url, params=params, timeout=10)] *)
Variable requests_get : string -> list (string * string) -> HttpOutcome.

(** [datetime.now().strftime('%Y%m%d-%H%M%S')] and
    [(datetime.now() + timedelta(days=7)).isoformat()] *)
Variable strftime_now : string.
Variable isoformat_in_7_days : string.

(** Truth value of the credential: [None] and the empty string are
    false. *)
Definition api_key_set : bool :=
  match MAPBOX_API_KEY with
  | Some (String _ _) => true
  | _ => false
  end.

(** The credential as an f-string or a request parameter renders it. *)
Definition api_key_text : string :=
  match MAPBOX_API_KEY with
  | Some k => k
  | None => "None"
  end.

Definition get_mapbox_distance (origin_zip dest_zip : string)
  : result DistanceResult :=
  if negb api_key_set then
    fallback_distance_calculation origin_zip dest_zip
  else if negb (zip_in_db origin_zip) || negb (zip_in_db dest_zip) then
    fallback_distance_calculation origin_zip dest_zip
  else
    origin <- zip_getitem origin_zip ;;
    dest <- zip_getitem dest_zip ;;
    let coordinates :=
      float_str (lon origin) ++ "," ++ float_str (lat origin) ++ ";"
      ++ float_str (lon dest) ++ "," ++ float_str (lat dest) in
    let url :=
      "https://api.mapbox.com/directions/v5/mapbox/driving/" ++ coordinates in
    let params :=
      [("access_token", api_key_text);
       ("geometries", "geojson");
       ("overview", "full")] in
    try_except
      (match requests_get url params with
       | RequestFailed => Raise RequestException
       | Response status_code body =>
           if (status_code =? 200)%Z then
             routes <- response_json body ;;
             match routes with
             | route :: _ =>
                 meters <- getitem (route_distance route) ;;
                 let distance_miles := meters * 0.000621371 in
                 seconds <- getitem (route_duration route) ;;
                 let duration_hours := seconds / 3600 in
                 route_geometry <- getitem (route_geometry_field route) ;;
                 Ok (mkDistanceResult distance_miles duration_hours
                                      route_geometry)
             | [] => fallback_distance_calculation origin_zip dest_zip
             end
           else fallback_distance_calculation origin_zip dest_zip
       end)
      (fun _ => fallback_distance_calculation origin_zip dest_zip).

Definition generate_static_map_url (origin_zip dest_zip : string)
           (route_geometry : Geometry) : option string :=
  if negb api_key_set then None
  else
    match zip_get origin_zip, zip_get dest_zip with
    | Some origin, Some dest =>
        let width := 600%Z in
        let height := 400%Z in
        let center_lon := (lon origin + lon dest) / 2 in
        let center_lat := (lat origin + lat dest) / 2 in
        let lon_diff := py_abs (lon origin - lon dest) in
        let lat_diff := py_abs (lat origin - lat dest) in
        let max_diff := py_max lon_diff lat_diff in
        let zoom :=
          if Rlt_dec max_diff 1 then 8%Z
          else if Rlt_dec max_diff 3 then 6%Z
          else if Rlt_dec max_diff 7 then 5%Z
          else if Rlt_dec max_diff 15 then 4%Z
          else 3%Z in
        let overlays :=
          ["pin-s-a+00ff00(" ++ float_str (lon origin) ++ ","
             ++ float_str (lat origin) ++ ")";
           "pin-s-b+ff0000(" ++ float_str (lon dest) ++ ","
             ++ float_str (lat dest) ++ ")"] in
        let overlays :=
          if geometry_truthy route_geometry && api_key_set then
            List.app overlays
              ["path-5+0000ff-0.6(" ++ float_str (lon origin) ++ ","
                 ++ float_str (lat origin) ++ "," ++ float_str (lon dest)
                 ++ "," ++ float_str (lat dest) ++ ")"]
          else overlays in
        let overlay_str := String.concat "," overlays in
        let map_url :=
          "https://api.mapbox.com/styles/v1/mapbox/streets-v11/static/"
          ++ overlay_str ++ "/"
          ++ float_str center_lon ++ "," ++ float_str center_lat ++ ","
          ++ str_of_Z zoom ++ "/" ++ str_of_Z width ++ "x" ++ str_of_Z height
          ++ "?access_token=" ++ api_key_text in
        Some map_url
    | _, _ => None
    end.

Definition calculate_quote (request : QuoteRequest) : result QuoteResponse :=
  route_data <-
    get_mapbox_distance (origin_zip request) (destination_zip request) ;;
  let distance := dr_distance_miles route_data in
  let duration := dr_duration_hours route_data in
  let route_geometry := dr_route_geometry route_data in
  let p := price request distance duration in
  let quote_id := "QT-" ++ strftime_now in
  let valid_until := isoformat_in_7_days ++ "Z" in
  let route_map_url :=
    generate_static_map_url (origin_zip request) (destination_zip request)
                            route_geometry in
  Ok (mkQuoteResponse
        quote_id
        (py_round (p_total_cost p) 2)
        (mkCostBreakdown
           (py_round (p_base_rate p) 2)
           (py_round (p_fuel_surcharge p) 2)
           (p_liftgate_fee p)
           (py_round (p_insurance p) 2)
           (p_climate_control_fee p))
        (p_transit_days p)
        (p_equipment_type p)
        valid_until
        "Payment due upon delivery"
        (py_round distance 1)
        (py_round duration 1)
        route_map_url).

End QuoteService.

(** ** The specification's vocabulary *)


(** The haversine of an angle, and the great-circle distance it gives
    between two points in degrees on a sphere of the given radius. *)
Definition hav (theta : R) : R := (1 - cos theta) / 2.

Definition deg (x : R) : R := x * PI / 180.

Definition great_circle (radius lat1 lon1 lat2 lon2 : R) : R :=
  2 * radius *
  asin (sqrt (hav (deg lat2 - deg lat1)
              + cos (deg lat1) * cos (deg lat2) * hav (deg lon2 - deg lon1))).

(** The normalization of a service name, and a request for climate
    control: some service whose normalized name is [climate_control]. *)
Definition normalize_service (s : string) : string :=
  replace_space_underscore (str_lower s).

Definition climate_control_requested (services : list string) : Prop :=
  exists s, In s services /\ normalize_service s = "climate_control".

(** A string ends with a given suffix. *)
Definition ends_with (suffix s : string) : Prop :=
  exists pre, s = pre ++ suffix.

(** The ways in which the live routing service cannot be used when both
    codes are known: no credential, a network error, a response whose
    status is not 200, or a response that carries no complete route. *)
Inductive service_unusable (key : option string) (http : HttpOutcome) : Prop :=
| Unusable_no_key : key = None -> service_unusable key http
| Unusable_empty_key : key = Some "" -> service_unusable key http
| Unusable_network : http = RequestFailed -> service_unusable key http
| Unusable_status : forall status body,
    http = Response status body -> status <> 200%Z ->
    service_unusable key http
| Unusable_body : forall status,
    http = Response status BadBody -> service_unusable key http
| Unusable_no_route : forall status,
    http = Response status (Routes []) -> service_unusable key http
| Unusable_incomplete_route : forall status r rs,
    http = Response status (Routes (r :: rs)) ->
    route_distance r = None \/ route_duration r = None \/
    route_geometry_field r = None ->
    service_unusable key http.

(** What the code expects of a successful answer: the distance and the
    duration of a route are not negative. *)
Definition route_nonneg (r : Route) : Prop :=
  (forall m, route_distance r = Some m -> 0 <= m) /\
  (forall s, route_duration r = Some s -> 0 <= s).

Definition service_contract (http : HttpOutcome) : Prop :=
  match http with
  | Response _ (Routes (r :: _)) => route_nonneg r
  | _ => True
  end.

(** ** Sample inputs *)

(** Los Angeles to Chicago, 800 lb on two pallets, with a liftgate. *)
Definition sample_request : QuoteRequest :=
  mkQuoteRequest "90021" "60601" 800 2 (mkDimensions 48 40 36)
                 ["liftgate"] "2024-01-15" "electronics".

(** Neither code is in the table. *)
Definition unknown_route_request : QuoteRequest :=
  mkQuoteRequest "00000" "99999" 800 2 (mkDimensions 48 40 36)
                 [] "2024-01-15" "electronics".

(** Mixed case and a space in the service name; light and heavy. *)
Definition climate_request : QuoteRequest :=
  mkQuoteRequest "90021" "60601" 800 2 (mkDimensions 48 40 36)
                 ["Climate Control"] "2024-01-15" "produce".

Definition heavy_climate_request : QuoteRequest :=
  mkQuoteRequest "90021" "60601" 15000 10 (mkDimensions 48 40 36)
                 ["Climate Control"] "2024-01-15" "produce".

(** A service that cannot be reached, and one that answers with a single
    complete route. *)
Definition service_down (url : string) (params : list (string * string))
  : HttpOutcome := RequestFailed.

Definition service_route (meters seconds : R)
           (url : string) (params : list (string * string)) : HttpOutcome :=
  Response 200
    (Routes [mkRoute (Some meters) (Some seconds)
                     (Some (Some (mkGeoJSON "LineString" [])))]).

(** A formatter that prints every float alike; enough where the digits do
    not matter. *)
Definition float_str_constant (x : R) : string := "0.0".

(** * The amounts on binary64 *)

(** What depends on how a double rounds cannot be read off the real
    numbers.  The amounts of [calculate_quote] and their rounding at the
    response are therefore embedded a second time, on binary64 itself:
    [float] is the primitive type of IEEE 754 doubles, and its operations
    are those of the hardware, as Python's are. *)

Module Binary64.

Import PrimFloat SpecFloat FloatOps.
Local Open Scope float_scope.
Set Warnings "-inexact-float".













End Binary64.

(** * The rest of the program *)

(** ** The quote endpoint ([quote_api.py]) *)

(** [HTTPException(status_code=..., detail=...)] *)
Record HTTPException : Type := mkHTTPException {
  http_status : Z;
  http_detail : string
}.

Section QuoteEndpoint.

Variable MAPBOX_API_KEY : option string.
Variable float_str : R -> string.
Variable requests_get : string -> list (string * string) -> HttpOutcome.
Variable strftime_now : string.
Variable isoformat_in_7_days : string.

(** [str(e)] for an exception. *)
Variable exception_str : pyexn -> string.

(** [POST /api/v1/quote]: the quote, or an internal error carrying the
    text of whatever [calculate_quote] raised. *)
Definition create_quote (request : QuoteRequest)
  : QuoteResponse + HTTPException :=
  match calculate_quote MAPBOX_API_KEY float_str requests_get strftime_now
          isoformat_in_7_days request with
  | Ok quote => inl quote
  | Raise e =>
      inr (mkHTTPException 500 ("Error calculating quote: " ++ exception_str e))
  end.

End QuoteEndpoint.

(** [GET /api/v1/zips] *)
Definition list_available_zips : list string * nat :=
  let zip_codes := map fst ZIP_DATABASE in
  (zip_codes, List.length zip_codes).

(** ** Values read from JSON *)

Module Json.

(** What [json.loads] and [response.json()] return.  A number is a
    finite one, or one of the three values [NaN], [Infinity] and
    [-Infinity] that the parser also accepts.  The entries of a dictionary
    are listed with distinct keys. *)
#[warnings="-register-all"]
Inductive json : Type :=
| JNull
| JBool (b : bool)
| JNum (x : R)
| JNaN
| JInfinity (negative : bool)
| JStr (s : string)
| JList (items : list json)
| JDict (entries : list (string * json)).

(** The exceptions these values raise, and the ones raised by the
    collaborators of the agent. *)
Inductive exn : Set :=
| AttributeError
| KeyError
| TypeError
| OtherError.

Inductive outcome (A : Type) : Type :=
| Return (a : A)
| Throw (e : exn).

Arguments Return {A} a.
Arguments Throw {A} e.

Definition and_then {A B : Type} (m : outcome A) (k : A -> outcome B)
  : outcome B :=
  match m with
  | Return a => k a
  | Throw e => Throw e
  end.

Definition dict_find (key : string) (entries : list (string * json))
  : option json :=
  option_map snd (find (fun kv => String.eqb key (fst kv)) entries).

(** [v.get(key, default)]: only a dictionary has the method. *)
Definition py_get (v : json) (key : string) (default : json) : outcome json :=
  match v with
  | JDict entries =>
      Return (match dict_find key entries with
              | Some x => x
              | None => default
              end)
  | _ => Throw AttributeError
  end.

(** [v[key]] for a string key: a missing key is a [KeyError], and a value
    that is not a dictionary cannot be subscripted by a string. *)
Definition py_getitem (v : json) (key : string) : outcome json :=
  match v with
  | JDict entries =>
      match dict_find key entries with
      | Some x => Return x
      | None => Throw KeyError
      end
  | _ => Throw TypeError
  end.

(** Truth value. *)
Definition truthy (v : json) : bool :=
  match v with
  | JNull => false
  | JBool b => b
  | JNum x => if Req_dec_T x 0 then false else true
  | JNaN => true
  | JInfinity _ => true
  | JStr s => negb (String.eqb s "")
  | JList items => match items with [] => false | _ :: _ => true end
  | JDict entries => match entries with [] => false | _ :: _ => true end
  end.

(** [v <= 0]: numbers and booleans compare with an integer, anything else
    raises.  Every comparison with [NaN] is false. *)
Definition py_le_zero (v : json) : outcome bool :=
  match v with
  | JNum x => Return (if Rle_dec x 0 then true else false)
  | JNaN => Return false
  | JInfinity negative => Return negative
  | JBool b => Return (negb b)
  | _ => Throw TypeError
  end.

End Json.

Notation "x <~ m ;; k" := (Json.and_then m (fun x => k))
  (at level 61, m at next level, right associativity).

(** ** Checking an extraction ([llm_extractor.py]) *)

Module llm_extractor.
Import Json.

Definition validate_extraction (data : json) : outcome (bool * string) :=
  origin <~ py_get data "origin" (JDict []) ;;
  origin_zip <~ py_get origin "zip" JNull ;;
  if negb (truthy origin_zip) then Return (false, "Missing origin zip code")
  else
    destination <~ py_get data "destination" (JDict []) ;;
    destination_zip <~ py_get destination "zip" JNull ;;
    if negb (truthy destination_zip) then
      Return (false, "Missing destination zip code")
    else
      cargo <~ py_get data "cargo" (JDict []) ;;
      weight <~ py_get cargo "weight_lbs" JNull ;;
      weight_bad <~ (if negb (truthy weight) then Return true
                     else py_le_zero weight) ;;
      if weight_bad then Return (false, "Missing or invalid weight")
      else
        cargo' <~ py_get data "cargo" (JDict []) ;;
        pieces <~ py_get cargo' "pieces" JNull ;;
        pieces_bad <~ (if negb (truthy pieces) then Return true
                       else py_le_zero pieces) ;;
        if pieces_bad then
          Return (false, "Missing or invalid number of pieces")
        else Return (true, "").

End llm_extractor.

(** ** Reading the mailbox ([email_handler.py]) *)

Module email_handler.

(** [needle in haystack] for strings. *)
Fixpoint str_contains (needle haystack : string) : bool :=
  String.prefix needle haystack
  || match haystack with
     | EmptyString => false
     | String _ rest => str_contains needle rest
     end.

Definition keywords : list string :=
  ["quote"; "freight"; "shipping"; "ship"; "transport";
   "delivery"; "pickup"; "pallet"; "lbs"; "weight"].

Definition is_quote_request (subject body : string) : bool :=
  let text := str_lower (subject ++ " " ++ body) in
  let matches :=
    List.length (filter (fun keyword => str_contains keyword text) keywords) in
  (2 <=? matches)%nat.

(** [xs[start:]] *)
Definition py_slice_from {A : Type} (xs : list A) (start : Z) : list A :=
  let n := Z.of_nat (List.length xs) in
  let first := if (start <? 0)%Z then Z.max (n + start) 0 else Z.min start n in
  skipn (Z.to_nat first) xs.

(** One fetched message, without the parsed original that the source
    keeps beside these fields. *)
Record Email : Type := mkEmail {
  email_id : string;
  email_from : string;
  email_from_name : string;
  email_subject : string;
  email_body : string
}.

(** What fetching and parsing one message gives. *)
Record ParsedMessage : Type := mkParsedMessage {
  parsed_from_name : string;
  parsed_from_email : string;
  parsed_subject : string;
  parsed_body : string
}.

(** Connecting, selecting the inbox and searching it: something raises,
    or the search answers with a status and the unread ids. *)
Inductive SearchOutcome : Type :=
| SearchRaised
| SearchResult (status : string) (email_ids : list string).

Section Mailbox.

Variable search_unseen : SearchOutcome.

(** Fetching one id and parsing it: [None] when the status is not OK or
    when anything raises on the way, which skips the message. *)
Variable fetch_message : string -> option ParsedMessage.

Definition fetch_unread_emails (max_emails : Z) : list Email :=
  match search_unseen with
  | SearchRaised => []
  | SearchResult status email_ids =>
      if negb (String.eqb status "OK") then []
      else
        let total_unread := Z.of_nat (List.length email_ids) in
        let email_ids :=
          if (max_emails <? total_unread)%Z
          then py_slice_from email_ids (- max_emails)
          else email_ids in
        flat_map
          (fun id =>
             match fetch_message id with
             | Some msg =>
                 [mkEmail id (parsed_from_email msg) (parsed_from_name msg)
                          (parsed_subject msg) (parsed_body msg)]
             | None => []
             end)
          email_ids
  end.

End Mailbox.

End email_handler.

(** ** The agent ([agent.py]) *)

Module agent.
Import Json.

(** What [requests.post] to the quote API gives: it raises, or it returns
    a status and a body that parses as JSON or does not. *)
Inductive PostOutcome : Type :=
| PostFailed
| PostResponse (status_code : Z) (body : option json).

(** What the agent does to the outside: it attempts a reply, attempts an
    error notice, or marks a message as read.  Writing to the log is left
    out. *)
Inductive event : Type :=
| SentReply (to_email subject body pdf_path : string)
| SentErrorReply (to_email original_subject error_message : string)
| MarkedAsRead (email_id : string).

Definition extraction_failed_message : string :=
  "We couldn't extract the necessary shipping information from your email. "
  ++ "Please provide the origin, destination, weight, and commodity details.".

Definition quote_failed_message : string :=
  "We encountered an error calculating your quote. Please try again later.".

Definition unexpected_error_message : string :=
  "We encountered an unexpected error processing your request. "
  ++ "Our team has been notified and will follow up with you shortly.".

(** Truth value of something that may be [None]. *)
Definition truthy_opt (v : option json) : bool :=
  match v with
  | Some x => truthy x
  | None => false
  end.

Section FreightQuoteAgent.

(** [extract_shipment_details]: the dictionary the model produced, or
    [None]. *)
Variable extract_shipment_details : string -> option json.

(** [requests.post(f"{api_base_url}/api/v1/quote", json=request_data)] *)
Variable requests_post : json -> PostOutcome.

(** [generate_quote_pdf] and [create_reply_body], either of which may
    raise on the data it is given. *)
Variable generate_quote_pdf : json -> json -> string -> outcome unit.
Variable create_reply_body : json -> json -> outcome string.

(** [email_handler.send_reply]: whether the message went out. *)
Variable send_reply : string -> string -> string -> string -> bool.

(** [datetime.now().strftime("%Y-%m-%d")], and how an f-string renders a
    value. *)
Variable today : string.
Variable json_str : json -> string.

(** The dictionary [call_quote_api] posts. *)
Definition build_request_data (shipment_data : json) : outcome json :=
  origin <~ py_getitem shipment_data "origin" ;;
  destination <~ py_getitem shipment_data "destination" ;;
  cargo <~ py_getitem shipment_data "cargo" ;;
  origin_zip <~ py_getitem origin "zip" ;;
  destination_zip <~ py_getitem destination "zip" ;;
  weight_lbs <~ py_getitem cargo "weight_lbs" ;;
  pieces <~ py_getitem cargo "pieces" ;;
  dimensions <~ py_getitem cargo "dimensions" ;;
  special_services <~ py_get shipment_data "special_services" (JList []) ;;
  pickup_date <~ py_get shipment_data "pickup_date" (JStr today) ;;
  commodity <~ py_get cargo "commodity" (JStr "General Freight") ;;
  Return (JDict [("origin_zip", origin_zip);
                 ("destination_zip", destination_zip);
                 ("weight_lbs", weight_lbs);
                 ("pieces", pieces);
                 ("dimensions", dimensions);
                 ("special_services", special_services);
                 ("pickup_date", pickup_date);
                 ("commodity", commodity)]).

Definition call_quote_api (shipment_data : json) : option json :=
  match
    (request_data <~ build_request_data shipment_data ;;
     match requests_post request_data with
     | PostFailed => Throw OtherError
     | PostResponse status_code body =>
         if (status_code =? 200)%Z then
           match body with
           | Some data => Return (Some data)
           | None => Throw OtherError
           end
         else Return None
     end)
  with
  | Return r => r
  | Throw _ => None
  end.

(** The [try] block of [process_email]. *)
Definition process_email_steps (email : email_handler.Email)
  : outcome (bool * list event) :=
  let sender := email_handler.email_from email in
  let subject := email_handler.email_subject email in
  let body := email_handler.email_body email in
  match extract_shipment_details body with
  | None =>
      Return (false, [SentErrorReply sender subject extraction_failed_message])
  | Some shipment_data =>
      if negb (truthy shipment_data) then
        Return (false,
                [SentErrorReply sender subject extraction_failed_message])
      else
        checked <~ llm_extractor.validate_extraction shipment_data ;;
        let (is_valid, error_msg) := checked in
        if negb is_valid then
          Return (false, [SentErrorReply sender subject error_msg])
        else
          origin <~ py_getitem shipment_data "origin" ;;
          origin_city <~ py_getitem origin "city" ;;
          destination <~ py_getitem shipment_data "destination" ;;
          destination_city <~ py_getitem destination "city" ;;
          match call_quote_api shipment_data with
          | None =>
              Return (false,
                      [SentErrorReply sender subject quote_failed_message])
          | Some quote_response =>
              if negb (truthy quote_response) then
                Return (false,
                        [SentErrorReply sender subject quote_failed_message])
              else
                total_cost <~ py_getitem quote_response "total_cost" ;;
                quote_id <~ py_getitem quote_response "quote_id" ;;
                quote_id' <~ py_getitem quote_response "quote_id" ;;
                let pdf_path := "quotes/" ++ json_str quote_id' ++ ".pdf" in
                generated <~
                  generate_quote_pdf quote_response shipment_data pdf_path ;;
                let reply_subject := "Re: " ++ subject in
                reply_body <~ create_reply_body quote_response shipment_data ;;
                let success :=
                  send_reply sender reply_subject reply_body pdf_path in
                if success then
                  Return (true,
                          [SentReply sender reply_subject reply_body pdf_path;
                           MarkedAsRead (email_handler.email_id email)])
                else
                  Return (false,
                          [SentReply sender reply_subject reply_body pdf_path])
          end
  end.

(** [process_email]: the result, and what was done on the way.  Whatever
    the [try] block raises ends in one attempt at an error notice. *)
Definition process_email (email : email_handler.Email) : bool * list event :=
  match process_email_steps email with
  | Return r => r
  | Throw _ =>
      (false,
       [SentErrorReply (email_handler.email_from email)
                       (email_handler.email_subject email)
                       unexpected_error_message])
  end.

End FreightQuoteAgent.

End agent.

(** ** Vocabulary for the rest of the program *)

(** A value that passes for a quantity: it is neither false nor at most
    zero.  That is a number above zero, [True] (which compares as one),
    [Infinity], and also [NaN], of which both tests are false. *)
Definition passes_for_quantity (v : Json.json) : Prop :=
  (exists x, v = Json.JNum x /\ 0 < x) \/ v = Json.JBool true \/
  v = Json.JInfinity false \/ v = Json.JNaN.

(** A text of ASCII characters only. *)
Fixpoint str_is_ascii (s : string) : bool :=
  match s with
  | EmptyString => true
  | String c rest => (nat_of_ascii c <? 128)%nat && str_is_ascii rest
  end.

(** The address an outgoing message is sent to. *)
Definition event_recipient (e : agent.event) : option string :=
  match e with
  | agent.SentReply to_email _ _ _ => Some to_email
  | agent.SentErrorReply to_email _ _ => Some to_email
  | agent.MarkedAsRead _ => None
  end.

(** An extraction as the language model is asked to produce it. *)
Definition sample_shipment : Json.json :=
  Json.JDict
    [("origin", Json.JDict [("city", Json.JStr "Los Angeles");
                            ("state", Json.JStr "CA");
                            ("zip", Json.JStr "90021")]);
     ("destination", Json.JDict [("city", Json.JStr "Chicago");
                                 ("state", Json.JStr "IL");
                                 ("zip", Json.JStr "60601")]);
     ("cargo", Json.JDict [("weight_lbs", Json.JNum 800);
                           ("pieces", Json.JNum 2);
                           ("piece_type", Json.JStr "pallets");
                           ("dimensions",
                            Json.JDict [("length", Json.JNum 48);
                                        ("width", Json.JNum 40);
                                        ("height", Json.JNum 60)]);
                           ("commodity", Json.JStr "electronics")]);
     ("special_services", Json.JList [Json.JStr "liftgate"])].

(** * Properties *)

(** ** Basic facts about the numeric helpers *)

Lemma Int_part_bounds (y : R) : IZR (Int_part y) <= y < IZR (Int_part y) + 1.
Proof.
  destruct (base_Int_part y) as [H1 H2]. split; lra.
Qed.

Lemma math_ceil_spec (x : R) :
  IZR (math_ceil x) - 1 < x <= IZR (math_ceil x).
Proof.
  unfold math_ceil. rewrite opp_IZR.
  destruct (Int_part_bounds (- x)) as [H1 H2]. split; lra.
Qed.

Lemma py_max_Rmax (a b : R) : py_max a b = Rmax a b.
Proof.
  unfold py_max, Rmax.
  destruct (Rlt_dec a b), (Rle_dec a b); try reflexivity; lra.
Qed.



(** ** Facts about the haversine quantity *)

Lemma sin_sqr_range (x : R) : 0 <= sin x ^ 2 <= 1.
Proof.
  pose proof (sin2_cos2 x) as H. unfold Rsqr in H.
  pose proof (pow2_ge_0 (sin x)). pose proof (pow2_ge_0 (cos x)).
  split; nra.
Qed.

Lemma cos_sqr_range (x : R) : 0 <= cos x ^ 2 <= 1.
Proof.
  pose proof (sin2_cos2 x) as H. unfold Rsqr in H.
  pose proof (pow2_ge_0 (sin x)). pose proof (pow2_ge_0 (cos x)).
  split; nra.
Qed.

(** The haversine of an angle is the squared sine of its half. *)
Lemma hav_sin_half (theta : R) : hav theta = sin (theta / 2) ^ 2.
Proof.
  unfold hav.
  replace theta with (2 * (theta / 2)) at 1 by field.
  rewrite cos_2a_sin. field.
Qed.

Lemma cos_product (x y : R) :
  cos x * cos y = cos ((y + x) / 2) ^ 2 - sin ((y - x) / 2) ^ 2.
Proof.
  set (v := (y + x) / 2). set (u := (y - x) / 2).
  replace x with (v - u) by (unfold u, v; field).
  replace y with (v + u) by (unfold u, v; field).
  rewrite cos_minus, cos_plus.
  pose proof (sin2_cos2 u) as Hu. pose proof (sin2_cos2 v) as Hv.
  unfold Rsqr in Hu, Hv.
  assert (Hcu : cos u * cos u = 1 - sin u * sin u) by lra.
  assert (Hsv : sin v * sin v = 1 - cos v * cos v) by lra.
  transitivity (cos v * cos v * (cos u * cos u)
                - sin v * sin v * (sin u * sin u)); [ring | ].
  rewrite Hcu, Hsv. ring.
Qed.

(** The argument of the square root is never negative and never above
    one, whatever the coordinates. *)
Lemma haversine_a_range (lat1 lon1 lat2 lon2 : R) :
  0 <= haversine_a lat1 lon1 lat2 lon2 <= 1.
Proof.
  unfold haversine_a, math_sin, math_cos.
  rewrite cos_product.
  pose proof (sin_sqr_range ((lat2 - lat1) / 2)) as Hs.
  pose proof (cos_sqr_range ((lat2 + lat1) / 2)) as Hc.
  pose proof (sin_sqr_range ((lon2 - lon1) / 2)) as Ht.
  set (s := sin ((lat2 - lat1) / 2) ^ 2) in *.
  set (c := cos ((lat2 + lat1) / 2) ^ 2) in *.
  set (t := sin ((lon2 - lon1) / 2) ^ 2) in *.
  split; nra.
Qed.

Lemma haversine_a_sym (lat1 lon1 lat2 lon2 : R) :
  haversine_a lat1 lon1 lat2 lon2 = haversine_a lat2 lon2 lat1 lon1.
Proof.
  unfold haversine_a, math_sin, math_cos.
  replace ((lat1 - lat2) / 2) with (- ((lat2 - lat1) / 2)) by field.
  replace ((lon1 - lon2) / 2) with (- ((lon2 - lon1) / 2)) by field.
  rewrite !sin_neg. ring.
Qed.

Lemma asin_nonneg (x : R) : 0 <= x <= 1 -> 0 <= asin x.
Proof.
  intros [H0 H1].
  destruct (Rle_or_lt 0 (asin x)) as [Hge | Hlt]; [exact Hge | exfalso].
  pose proof (asin_bound x) as [Hlo _].
  assert (Hsin : sin (asin x) < 0).
  { apply sin_lt_0_var; [ | exact Hlt]. pose proof PI_RGT_0. lra. }
  rewrite sin_asin in Hsin by lra. lra.
Qed.

Lemma sqrt_unit_range (a : R) : 0 <= a <= 1 -> 0 <= sqrt a <= 1.
Proof.
  intros [H0 H1]. split; [apply sqrt_pos | ].
  rewrite <- sqrt_1. apply sqrt_le_1_alt. exact H1.
Qed.

(** ** Facts about the ZIP code table *)

Lemma zip_get_of_in (z : string) :
  zip_in_db z = true -> exists loc, zip_get z = Some loc.
Proof.
  unfold zip_in_db, zip_get, str_in.
  induction ZIP_DATABASE as [ | [k v] rest IH]; simpl; [discriminate | ].
  destruct (String.eqb z k); simpl.
  - intros _. exists v. reflexivity.
  - exact IH.
Qed.

Lemma zip_get_of_not_in (z : string) :
  zip_in_db z = false -> zip_get z = None.
Proof.
  unfold zip_in_db, zip_get, str_in.
  induction ZIP_DATABASE as [ | [k v] rest IH]; simpl; [reflexivity | ].
  destruct (String.eqb z k); simpl; [discriminate | exact IH].
Qed.

Lemma zip_in_of_get (z : string) (loc : Location) :
  zip_get z = Some loc -> zip_in_db z = true.
Proof.
  intros H. destruct (zip_in_db z) eqn:E; [reflexivity | ].
  rewrite (zip_get_of_not_in z E) in H. discriminate.
Qed.

(** ** The fallback computes the great-circle distance *)

Lemma math_sqrt_haversine (lat1 lon1 lat2 lon2 : R) :
  math_sqrt (haversine_a lat1 lon1 lat2 lon2)
  = Ok (sqrt (haversine_a lat1 lon1 lat2 lon2)).
Proof.
  unfold math_sqrt.
  pose proof (haversine_a_range lat1 lon1 lat2 lon2) as [H0 _].
  destruct (Rlt_dec _ 0); [lra | reflexivity].
Qed.

Lemma math_asin_unit (x : R) : 0 <= x <= 1 -> math_asin x = Ok (asin x).
Proof.
  intros [H0 H1]. unfold math_asin.
  destruct (Rlt_dec x (-1)); [lra | ].
  destruct (Rlt_dec 1 x); [lra | reflexivity].
Qed.

Lemma haversine_a_hav (lat1 lon1 lat2 lon2 : R) :
  haversine_a (math_radians lat1) (math_radians lon1)
              (math_radians lat2) (math_radians lon2)
  = hav (deg lat2 - deg lat1)
    + cos (deg lat1) * cos (deg lat2) * hav (deg lon2 - deg lon1).
Proof.
  unfold haversine_a, math_sin, math_cos, math_radians, deg.
  rewrite !hav_sin_half.
  replace (lat1 * (PI / 180)) with (lat1 * PI / 180) by field.
  replace (lat2 * (PI / 180)) with (lat2 * PI / 180) by field.
  replace (lon1 * (PI / 180)) with (lon1 * PI / 180) by field.
  replace (lon2 * (PI / 180)) with (lon2 * PI / 180) by field.
  reflexivity.
Qed.

Lemma fallback_known (origin_zip dest_zip : string) (loc1 loc2 : Location) :
  zip_get origin_zip = Some loc1 ->
  zip_get dest_zip = Some loc2 ->
  fallback_distance_calculation origin_zip dest_zip
  = Ok (mkDistanceResult
          (great_circle 3959 (lat loc1) (lon loc1) (lat loc2) (lon loc2))
          (great_circle 3959 (lat loc1) (lon loc1) (lat loc2) (lon loc2) / 60)
          None).
Proof.
  intros H1 H2. unfold fallback_distance_calculation, zip_getitem.
  rewrite (zip_in_of_get _ _ H1), (zip_in_of_get _ _ H2), H1, H2. simpl.
  rewrite math_sqrt_haversine. simpl.
  rewrite math_asin_unit
    by (apply sqrt_unit_range, haversine_a_range).
  simpl. rewrite haversine_a_hav.
  unfold great_circle.
  set (angle := asin _).
  replace (3959 * (2 * angle)) with (2 * 3959 * angle) by ring.
  reflexivity.
Qed.

Lemma fallback_unknown (origin_zip dest_zip : string) :
  zip_in_db origin_zip = false \/ zip_in_db dest_zip = false ->
  fallback_distance_calculation origin_zip dest_zip
  = Ok (mkDistanceResult 1000.0 16.0 None).
Proof.
  intros H. unfold fallback_distance_calculation.
  destruct H as [H | H]; rewrite H; simpl.
  - reflexivity.
  - rewrite orb_true_r. reflexivity.
Qed.

Lemma great_circle_nonneg (lat1 lon1 lat2 lon2 : R) :
  0 <= great_circle 3959 lat1 lon1 lat2 lon2.
Proof.
  unfold great_circle. rewrite <- haversine_a_hav.
  assert (0 <= asin (sqrt (haversine_a (math_radians lat1) (math_radians lon1)
                                       (math_radians lat2) (math_radians lon2)))).
  { apply asin_nonneg, sqrt_unit_range, haversine_a_range. }
  lra.
Qed.

(** The fallback always returns, and what it returns is not negative. *)
Lemma fallback_returns (origin_zip dest_zip : string) :
  exists r, fallback_distance_calculation origin_zip dest_zip = Ok r /\
            0 <= dr_distance_miles r /\ 0 <= dr_duration_hours r /\
            dr_route_geometry r = None.
Proof.
  destruct (zip_in_db origin_zip) eqn:E1; [destruct (zip_in_db dest_zip) eqn:E2 | ].
  - destruct (zip_get_of_in _ E1) as [l1 H1].
    destruct (zip_get_of_in _ E2) as [l2 H2].
    rewrite (fallback_known _ _ _ _ H1 H2).
    eexists. split; [reflexivity | ]. simpl.
    pose proof (great_circle_nonneg (lat l1) (lon l1) (lat l2) (lon l2)).
    repeat split; try lra.
  - rewrite fallback_unknown by (right; exact E2).
    eexists. split; [reflexivity | ]. simpl. repeat split; lra.
  - rewrite fallback_unknown by (left; exact E1).
    eexists. split; [reflexivity | ]. simpl. repeat split; lra.
Qed.

(** ** The resolver: the service's answer or the fallback *)

Section Resolver.

Variable MAPBOX_API_KEY : option string.
Variable float_str : R -> string.
Variable requests_get : string -> list (string * string) -> HttpOutcome.

Lemma try_fallback (origin_zip dest_zip : string)
      (handler : pyexn -> result DistanceResult) :
  try_except (fallback_distance_calculation origin_zip dest_zip) handler
  = fallback_distance_calculation origin_zip dest_zip.
Proof.
  destruct (fallback_returns origin_zip dest_zip) as [r [H _]].
  rewrite H. reflexivity.
Qed.

(** The resolver returns the fallback's result, unless the service
    answered 200 with a complete first route, whose figures it
    converts. *)
Lemma resolve_cases (origin_zip dest_zip : string) :
  get_mapbox_distance MAPBOX_API_KEY float_str requests_get
      origin_zip dest_zip
  = fallback_distance_calculation origin_zip dest_zip
  \/
  exists url params r rs meters seconds g,
    api_key_set MAPBOX_API_KEY = true /\
    zip_in_db origin_zip = true /\ zip_in_db dest_zip = true /\
    requests_get url params = Response 200 (Routes (r :: rs)) /\
    route_distance r = Some meters /\
    route_duration r = Some seconds /\
    route_geometry_field r = Some g /\
    get_mapbox_distance MAPBOX_API_KEY float_str requests_get
      origin_zip dest_zip
    = Ok (mkDistanceResult (meters * 0.000621371) (seconds / 3600) g).
Proof.
  unfold get_mapbox_distance.
  destruct (api_key_set MAPBOX_API_KEY) eqn:Ekey; simpl; [ | left; reflexivity].
  destruct (zip_in_db origin_zip) eqn:E1; simpl; [ | left; reflexivity].
  destruct (zip_in_db dest_zip) eqn:E2; simpl; [ | left; reflexivity].
  destruct (zip_get_of_in _ E1) as [l1 H1].
  destruct (zip_get_of_in _ E2) as [l2 H2].
  unfold zip_getitem. rewrite H1, H2. simpl.
  match goal with
  | |- context [requests_get ?u ?p] =>
      set (url := u); set (params := p);
      destruct (requests_get url params) as [ | status body] eqn:Ehttp
  end.
  - left. reflexivity.
  - destruct (Z.eqb_spec status 200) as [-> | Hstatus];
      [ | left; apply try_fallback].
    destruct body as [ | [ | r rs]]; simpl.
    + left. reflexivity.
    + left. apply try_fallback.
    + destruct (route_distance r) as [meters | ] eqn:Ed; simpl;
        [ | left; reflexivity].
      destruct (route_duration r) as [seconds | ] eqn:Et; simpl;
        [ | left; reflexivity].
      destruct (route_geometry_field r) as [g | ] eqn:Eg; simpl;
        [ | left; reflexivity].
      right. exists url, params, r, rs, meters, seconds, g.
      repeat split; try assumption; reflexivity.
Qed.

(** When the service cannot be used, the resolver is the fallback. *)
Lemma resolve_unusable (origin_zip dest_zip : string) :
  (forall url params,
      service_unusable MAPBOX_API_KEY (requests_get url params)) ->
  get_mapbox_distance MAPBOX_API_KEY float_str requests_get
      origin_zip dest_zip
  = fallback_distance_calculation origin_zip dest_zip.
Proof.
  intros Hun.
  destruct (resolve_cases origin_zip dest_zip) as [H | H]; [exact H | ].
  destruct H as (url & params & r & rs & m & s & g
                 & Hkey & _ & _ & Hhttp & Hd & Ht & Hg & _).
  exfalso.
  destruct (Hun url params) as
    [Hk | Hk | Hn | st b Hr Hs | st Hr | st Hr | st r' rs' Hr Hf].
  - rewrite Hk in Hkey. discriminate.
  - rewrite Hk in Hkey. discriminate.
  - congruence.
  - rewrite Hhttp in Hr. injection Hr as <- _. apply Hs. reflexivity.
  - congruence.
  - congruence.
  - rewrite Hhttp in Hr. injection Hr as _ <- _.
    destruct Hf as [Hf | [Hf | Hf]]; congruence.
Qed.

End Resolver.

(** ** Facts about the pricing helpers *)

Lemma str_in_In (x : string) (xs : list string) :
  str_in x xs = true <-> In x xs.
Proof.
  unfold str_in. rewrite existsb_exists. split.
  - intros [y [Hy Heq]]. apply String.eqb_eq in Heq. subst y. exact Hy.
  - intros H. exists x. split; [exact H | apply String.eqb_refl].
Qed.

Lemma climate_control_in_normalized (services : list string) :
  str_in "climate_control" (normalized_services services) = true
  <-> climate_control_requested services.
Proof.
  rewrite str_in_In. unfold normalized_services, climate_control_requested.
  rewrite in_map_iff. split.
  - intros [s [Heq Hin]]. exists s. split; assumption.
  - intros [s [Hin Heq]]. exists s. split; assumption.
Qed.

Lemma py_round_cents (x : R) :
  py_round x 2 = IZR (round_half_even (x * 100)) / 100.
Proof.
  unfold py_round. simpl pow.
  replace (10 * (10 * 1)) with 100 by lra. reflexivity.
Qed.

Lemma round_half_even_ge_floor (y : R) :
  (Int_part y <= round_half_even y)%Z.
Proof.
  unfold round_half_even.
  destruct (Rlt_dec _ _); [lia | ].
  destruct (Rlt_dec _ _); [lia | ].
  destruct (Z.even _); lia.
Qed.

(** Rounding to cents does not take an amount below a whole bound it
    already reaches. *)
Lemma py_round_cents_lower (n : Z) (x : R) :
  IZR n <= x -> IZR n <= py_round x 2.
Proof.
  intros H. rewrite py_round_cents.
  destruct (Int_part_bounds (x * 100)) as [_ Hup].
  assert (Hz : (100 * n <= Int_part (x * 100))%Z).
  { assert (Hlt : IZR (100 * n) < IZR (Int_part (x * 100) + 1)).
    { rewrite mult_IZR, plus_IZR. lra. }
    apply lt_IZR in Hlt. lia. }
  pose proof (round_half_even_ge_floor (x * 100)) as Hr.
  assert (Hle : IZR (100 * n) <= IZR (round_half_even (x * 100))).
  { apply IZR_le. lia. }
  rewrite mult_IZR in Hle. lra.
Qed.

(** ** The quote as assembled from the resolved distance *)

Section Quote.

Variable MAPBOX_API_KEY : option string.
Variable float_str : R -> string.
Variable requests_get : string -> list (string * string) -> HttpOutcome.
Variable strftime_now : string.
Variable isoformat_in_7_days : string.

(** Once the distance is resolved the quote is returned, and its fields
    are the pricing values, the monetary ones rounded to cents. *)
Lemma calculate_quote_fields (request : QuoteRequest)
      (route_data : DistanceResult) :
  get_mapbox_distance MAPBOX_API_KEY float_str requests_get
    (origin_zip request) (destination_zip request) = Ok route_data ->
  exists q,
    calculate_quote MAPBOX_API_KEY float_str requests_get strftime_now
      isoformat_in_7_days request = Ok q /\
    let p := price request (dr_distance_miles route_data)
                   (dr_duration_hours route_data) in
    total_cost q = py_round (p_total_cost p) 2 /\
    breakdown q = mkCostBreakdown
                    (py_round (p_base_rate p) 2)
                    (py_round (p_fuel_surcharge p) 2)
                    (p_liftgate_fee p)
                    (py_round (p_insurance p) 2)
                    (p_climate_control_fee p) /\
    transit_days q = p_transit_days p /\
    equipment_type q = p_equipment_type p /\
    route_map_url q
    = generate_static_map_url MAPBOX_API_KEY float_str
        (origin_zip request) (destination_zip request)
        (dr_route_geometry route_data).
Proof.
  intros H. unfold calculate_quote. rewrite H. simpl bind.
  eexists. split; [reflexivity | ].
  repeat split.
Qed.

Lemma calculate_quote_resolved (request : QuoteRequest) (q : QuoteResponse) :
  calculate_quote MAPBOX_API_KEY float_str requests_get strftime_now
    isoformat_in_7_days request = Ok q ->
  exists route_data,
    get_mapbox_distance MAPBOX_API_KEY float_str requests_get
      (origin_zip request) (destination_zip request) = Ok route_data.
Proof.
  unfold calculate_quote.
  destruct (get_mapbox_distance _ _ _ _ _) as [rd | e]; simpl.
  - intros _. exists rd. reflexivity.
  - discriminate.
Qed.

End Quote.

(** ** Strings ending in a suffix *)

Lemma str_append_assoc (a b c : string) : (a ++ b) ++ c = a ++ (b ++ c).
Proof.
  induction a as [ | ch a IH]; simpl; [reflexivity | ].
  rewrite IH. reflexivity.
Qed.

Lemma ends_with_refl (s : string) : ends_with s s.
Proof. exists "". reflexivity. Qed.

Lemma ends_with_append (suffix p s : string) :
  ends_with suffix s -> ends_with suffix (p ++ s).
Proof.
  intros [pre ->]. exists (p ++ pre). symmetry. apply str_append_assoc.
Qed.

Lemma map_url_suffix (key : option string) (float_str : R -> string)
      (origin_zip dest_zip : string) (g : Geometry) (url : string) :
  generate_static_map_url key float_str origin_zip dest_zip g = Some url ->
  exists token,
    key = Some token /\ token <> "" /\
    ends_with ("?access_token=" ++ token) url.
Proof.
  unfold generate_static_map_url.
  destruct (api_key_set key) eqn:Ekey; cbn [negb]; [ | discriminate].
  destruct (zip_get origin_zip) as [origin | ]; [ | discriminate].
  destruct (zip_get dest_zip) as [dest | ]; [ | discriminate].
  cbv zeta. intros Hurl.
  apply (f_equal (fun o => match o with Some u => u | None => url end)) in Hurl.
  cbv beta iota in Hurl. subst url.
  destruct key as [[ | c k] | ]; try discriminate Ekey.
  exists (String c k).
  split; [reflexivity | ]. split; [discriminate | ].
  unfold api_key_text.
  repeat (first [apply ends_with_refl | apply ends_with_append]).
Qed.

Lemma map_url_produced (key : option string) (float_str : R -> string)
      (origin_zip dest_zip : string) (g : Geometry) :
  generate_static_map_url key float_str origin_zip dest_zip g <> None
  <-> api_key_set key = true /\
      zip_in_db origin_zip = true /\ zip_in_db dest_zip = true.
Proof.
  unfold generate_static_map_url.
  destruct (api_key_set key); cbn [negb].
  - destruct (zip_in_db origin_zip) eqn:E1.
    + destruct (zip_get_of_in _ E1) as [l1 ->].
      destruct (zip_in_db dest_zip) eqn:E2.
      * destruct (zip_get_of_in _ E2) as [l2 ->].
        split; [intros _; auto | intros _; discriminate].
      * rewrite (zip_get_of_not_in _ E2).
        split; [intros H; exfalso; apply H; reflexivity | intros [_ [_ H]]; discriminate].
    + rewrite (zip_get_of_not_in _ E1).
      split; [intros H; exfalso; apply H; reflexivity | intros [_ [H _]]; discriminate].
  - split; [intros H; exfalso; apply H; reflexivity | intros [H _]; discriminate].
Qed.

Lemma great_circle_sym (radius lat1 lon1 lat2 lon2 : R) :
  great_circle radius lat1 lon1 lat2 lon2
  = great_circle radius lat2 lon2 lat1 lon1.
Proof.
  unfold great_circle.
  rewrite <- !haversine_a_hav.
  rewrite (haversine_a_sym (math_radians lat1)). reflexivity.
Qed.

(** * The pricing engine *)

Section AmountsOnBinary64.

Import PrimFloat.
Local Open Scope float_scope.
Set Warnings "-inexact-float".






End AmountsOnBinary64.

(** C2. The base rate is the larger of the mileage-and-weight charge and
    500, so it is never below 500, before and after rounding to cents.
    No assumption on the weight or the distance is needed. *)
Theorem base_rate_floor (request : QuoteRequest) (distance duration : R) :
  let p := price request distance duration in
  p_base_rate p = Rmax (distance * 2.0 + weight_lbs request * 0.50) 500.0 /\
  500.0 <= p_base_rate p /\
  500.0 <= py_round (p_base_rate p) 2.
Proof.
  intros p.
  assert (Hmax : p_base_rate p
                 = Rmax (distance * 2.0 + weight_lbs request * 0.50) 500.0).
  { apply py_max_Rmax. }
  assert (Hfloor : 500.0 <= p_base_rate p).
  { rewrite Hmax. apply Rmax_r. }
  split; [exact Hmax | ]. split; [exact Hfloor | ].
  replace 500.0 with (IZR 500) in * by lra.
  apply py_round_cents_lower. exact Hfloor.
Qed.


(** C7. The liftgate fee is 75 when the string [liftgate] is among the
    special services as given, and 0 otherwise; the climate control fee is
    150 when some service normalizes to [climate_control], and 0
    otherwise. *)
Theorem special_service_fees (request : QuoteRequest) (distance duration : R) :
  let p := price request distance duration in
  (In "liftgate" (special_services request) -> p_liftgate_fee p = 75.0) /\
  (~ In "liftgate" (special_services request) -> p_liftgate_fee p = 0.0) /\
  (climate_control_requested (special_services request) ->
   p_climate_control_fee p = 150.0) /\
  (~ climate_control_requested (special_services request) ->
   p_climate_control_fee p = 0.0).
Proof.
  intros p. simpl.
  pose proof (str_in_In "liftgate" (special_services request)) as HL.
  pose proof (climate_control_in_normalized (special_services request)) as HC.
  destruct (str_in "liftgate" _);
    destruct (str_in "climate_control" _);
    repeat split; intros H; try reflexivity; exfalso;
    first [ apply H; first [apply HL | apply HC]; reflexivity
          | apply HL in H; discriminate
          | apply HC in H; discriminate ].
Qed.

Lemma special_service_fees_witness :
  p_liftgate_fee (price sample_request 1745 29) = 75.0 /\
  p_climate_control_fee (price sample_request 1745 29) = 0.0 /\
  p_liftgate_fee (price climate_request 1745 29) = 0.0 /\
  p_climate_control_fee (price climate_request 1745 29) = 150.0 /\
  p_liftgate_fee
    (price (mkQuoteRequest "90021" "60601" 800 2 (mkDimensions 48 40 36)
                           ["Liftgate"; "CLIMATE_CONTROL"]
                           "2024-01-15" "produce") 1745 29) = 0.0 /\
  p_climate_control_fee
    (price (mkQuoteRequest "90021" "60601" 800 2 (mkDimensions 48 40 36)
                           ["Liftgate"; "CLIMATE_CONTROL"]
                           "2024-01-15" "produce") 1745 29) = 150.0.
Proof.
  destruct (special_service_fees sample_request 1745 29)
    as (Hlift & _ & _ & Hnoclimate).
  destruct (special_service_fees climate_request 1745 29)
    as (_ & Hnolift & Hclimate & _).
  destruct (special_service_fees
              (mkQuoteRequest "90021" "60601" 800 2 (mkDimensions 48 40 36)
                              ["Liftgate"; "CLIMATE_CONTROL"]
                              "2024-01-15" "produce") 1745 29)
    as (_ & Hnolift' & Hclimate' & _).
  refine (conj _ (conj _ (conj _ (conj _ (conj _ _))))).
  - apply Hlift. simpl. left. reflexivity.
  - apply Hnoclimate. intros [s [Hin Hnorm]]. simpl in Hin.
    destruct Hin as [<- | []]. vm_compute in Hnorm. discriminate.
  - apply Hnolift. simpl. intros [H | []]. discriminate.
  - apply Hclimate. exists "Climate Control".
    split; [simpl; left | vm_compute]; reflexivity.
  - apply Hnolift'. simpl. intros [H | [H | []]]; discriminate.
  - apply Hclimate'. exists "CLIMATE_CONTROL".
    split; [simpl; right; left | vm_compute]; reflexivity.
Defined.

(** C8. The equipment is a flatbed above 10000 lb whatever the services;
    otherwise a reefer when climate control is requested; otherwise a dry
    van. *)
Theorem equipment_type_priority (request : QuoteRequest) (distance duration : R) :
  let p := price request distance duration in
  (10000 < weight_lbs request -> p_equipment_type p = "flatbed") /\
  (weight_lbs request <= 10000 ->
   climate_control_requested (special_services request) ->
   p_equipment_type p = "reefer") /\
  (weight_lbs request <= 10000 ->
   ~ climate_control_requested (special_services request) ->
   p_equipment_type p = "dry_van").
Proof.
  intros p. simpl.
  pose proof (climate_control_in_normalized (special_services request)) as HC.
  destruct (Rlt_dec 10000 (weight_lbs request)) as [Hw | Hw].
  - repeat split; intros; try reflexivity; lra.
  - destruct (str_in "climate_control" _).
    + repeat split; intros; try reflexivity; try lra.
      exfalso. match goal with H : ~ _ |- _ => apply H end.
      apply HC. reflexivity.
    + repeat split; intros; try reflexivity; try lra.
      match goal with H : climate_control_requested _ |- _ =>
        apply HC in H; discriminate end.
Qed.

Lemma equipment_type_priority_witness :
  p_equipment_type (price heavy_climate_request 1745 29) = "flatbed" /\
  p_equipment_type (price climate_request 1745 29) = "reefer" /\
  p_equipment_type (price sample_request 1745 29) = "dry_van".
Proof.
  split; [ | split].
  - apply (equipment_type_priority heavy_climate_request 1745 29).
    simpl. lra.
  - apply (equipment_type_priority climate_request 1745 29).
    + simpl. lra.
    + exists "Climate Control". split; [simpl; left | vm_compute]; reflexivity.
  - apply (equipment_type_priority sample_request 1745 29).
    + simpl. lra.
    + intros [s [Hin Hnorm]]. simpl in Hin.
      destruct Hin as [<- | []]. vm_compute in Hnorm. discriminate.
Defined.

(** * The distance resolver *)

(** C3, as stated, fails for a live answer: the figures of the route are
    passed on as they are, so a service that reports a negative distance
    and duration makes the result negative. *)
Lemma live_answer_can_be_negative :
  exists r,
    get_mapbox_distance (Some "pk.sample") float_str_constant
      (service_route (-1000) (-72000)) "90021" "60601" = Ok r /\
    dr_distance_miles r < 0 /\ dr_duration_hours r < 0.
Proof.
  exists (mkDistanceResult (-1000 * 0.000621371) (-72000 / 3600)
                           (Some (mkGeoJSON "LineString" []))).
  split; [reflexivity | ]. simpl. split; lra.
Qed.

(** C3, amended.  The resolver always returns a result, whatever the
    credential, whatever the exchange with the routing service, and for
    any two strings as codes.  Its distance and duration are not negative
    whenever the result is the fallback's, or the figures of the route
    the service reports are not negative. *)
Theorem resolver_never_fails
        (key : option string) (float_str : R -> string)
        (requests_get : string -> list (string * string) -> HttpOutcome)
        (origin_zip dest_zip : string) :
  exists r,
    get_mapbox_distance key float_str requests_get origin_zip dest_zip = Ok r /\
    (get_mapbox_distance key float_str requests_get origin_zip dest_zip
     = fallback_distance_calculation origin_zip dest_zip ->
     0 <= dr_distance_miles r /\ 0 <= dr_duration_hours r) /\
    ((forall url params, service_contract (requests_get url params)) ->
     0 <= dr_distance_miles r /\ 0 <= dr_duration_hours r).
Proof.
  destruct (resolve_cases key float_str requests_get origin_zip dest_zip)
    as [Hfall | Hlive].
  - destruct (fallback_returns origin_zip dest_zip) as (r & Hr & Hd & Ht & _).
    exists r. rewrite Hfall. auto.
  - destruct Hlive as (url & params & r & rs & meters & seconds & g
                       & _ & _ & _ & Hhttp & Hd & Ht & _ & Hres).
    eexists. split; [exact Hres | ]. split.
    + intros Hfall. rewrite Hres in Hfall.
      destruct (fallback_returns origin_zip dest_zip)
        as (r' & Hr' & Hd' & Ht' & _).
      rewrite Hr' in Hfall. injection Hfall as <-. auto.
    + intros Hcontract.
      pose proof (Hcontract url params) as Hc.
      rewrite Hhttp in Hc. simpl in Hc. destruct Hc as [Hm Hs].
      pose proof (Hm _ Hd). pose proof (Hs _ Ht).
      simpl. split; lra.
Qed.

Lemma resolver_never_fails_witness :
  (exists r,
      get_mapbox_distance (Some "pk.sample") float_str_constant
        (service_route 3243000 104400) "90021" "60601" = Ok r /\
      0 <= dr_distance_miles r /\ 0 <= dr_duration_hours r) /\
  (exists r,
      get_mapbox_distance (Some "pk.sample") float_str_constant
        service_down "90021" "00000" = Ok r /\
      0 <= dr_distance_miles r /\ 0 <= dr_duration_hours r).
Proof.
  split.
  - destruct (resolver_never_fails (Some "pk.sample") float_str_constant
                (service_route 3243000 104400) "90021" "60601")
      as (r & Hr & _ & Hlive).
    exists r. split; [exact Hr | ]. apply Hlive.
    intros url params. simpl. split; intros x [= <-]; lra.
  - destruct (resolver_never_fails (Some "pk.sample") float_str_constant
                service_down "90021" "00000")
      as (r & Hr & Hfall & _).
    exists r. split; [exact Hr | ]. apply Hfall. reflexivity.
Defined.

(** C4, as stated, fails when a code is absent from the table: the result
    is the placeholder, whose duration is not its distance over 60. *)
Lemma absent_code_fallback_is_not_haversine :
  exists r,
    get_mapbox_distance None float_str_constant service_down "00000" "60601"
    = Ok r /\
    dr_duration_hours r <> dr_distance_miles r / 60.
Proof.
  exists (mkDistanceResult 1000.0 16.0 None).
  split; [reflexivity | ]. simpl. lra.
Qed.

(** C4, amended.  When both codes are in the table and the live service
    cannot be used, the resolver returns the great-circle distance of the
    haversine formula on a sphere of radius 3959 miles, with the duration
    that distance over 60; when a code is absent it returns the
    placeholder of 1000 miles and 16 hours. *)
Theorem fallback_is_haversine_for_known_codes
        (key : option string) (float_str : R -> string)
        (requests_get : string -> list (string * string) -> HttpOutcome)
        (origin_zip dest_zip : string) :
  (forall loc1 loc2,
      zip_get origin_zip = Some loc1 -> zip_get dest_zip = Some loc2 ->
      (forall url params, service_unusable key (requests_get url params)) ->
      let miles :=
        great_circle 3959 (lat loc1) (lon loc1) (lat loc2) (lon loc2) in
      get_mapbox_distance key float_str requests_get origin_zip dest_zip
      = Ok (mkDistanceResult miles (miles / 60) None)) /\
  (zip_in_db origin_zip = false \/ zip_in_db dest_zip = false ->
   get_mapbox_distance key float_str requests_get origin_zip dest_zip
   = Ok (mkDistanceResult 1000.0 16.0 None)).
Proof.
  split.
  - intros loc1 loc2 H1 H2 Hun miles.
    rewrite (resolve_unusable key float_str requests_get _ _ Hun).
    apply fallback_known; assumption.
  - intros Habsent.
    rewrite <- (fallback_unknown _ _ Habsent).
    unfold get_mapbox_distance.
    destruct (api_key_set key); cbn [negb]; [ | reflexivity].
    destruct Habsent as [H | H]; rewrite H; cbn [negb orb]; [reflexivity | ].
    rewrite orb_true_r. reflexivity.
Qed.

Lemma fallback_is_haversine_for_known_codes_witness :
  get_mapbox_distance (Some "pk.sample") float_str_constant service_down
    "90021" "60601"
  = Ok (mkDistanceResult
          (great_circle 3959 34.0407 (-118.2468) 41.8781 (-87.6298))
          (great_circle 3959 34.0407 (-118.2468) 41.8781 (-87.6298) / 60)
          None) /\
  get_mapbox_distance (Some "pk.sample") float_str_constant service_down
    "90021" "00000"
  = Ok (mkDistanceResult 1000.0 16.0 None).
Proof.
  destruct (fallback_is_haversine_for_known_codes (Some "pk.sample")
              float_str_constant service_down "90021" "60601") as [Hknown _].
  destruct (fallback_is_haversine_for_known_codes (Some "pk.sample")
              float_str_constant service_down "90021" "00000") as [_ Habsent].
  split.
  - apply (Hknown (mkLocation "Los Angeles" "CA" 34.0407 (-118.2468))
                  (mkLocation "Chicago" "IL" 41.8781 (-87.6298))
                  eq_refl eq_refl).
    intros url params. apply Unusable_network. reflexivity.
  - apply Habsent. right. reflexivity.
Defined.

(** C5. With no credential configured and a code absent from the table,
    the resolver returns exactly 1000 miles and 16 hours. *)
Theorem unknown_route_placeholder
        (key : option string) (float_str : R -> string)
        (requests_get : string -> list (string * string) -> HttpOutcome)
        (origin_zip dest_zip : string) :
  api_key_set key = false ->
  zip_in_db origin_zip = false \/ zip_in_db dest_zip = false ->
  exists r,
    get_mapbox_distance key float_str requests_get origin_zip dest_zip = Ok r /\
    dr_distance_miles r = 1000.0 /\ dr_duration_hours r = 16.0.
Proof.
  intros Hkey Habsent.
  unfold get_mapbox_distance. rewrite Hkey. cbn [negb].
  rewrite (fallback_unknown _ _ Habsent).
  eexists. split; [reflexivity | ]. split; reflexivity.
Qed.

Lemma unknown_route_placeholder_witness :
  exists r,
    get_mapbox_distance None float_str_constant service_down "00000" "99999"
    = Ok r /\
    dr_distance_miles r = 1000.0 /\ dr_duration_hours r = 16.0.
Proof.
  apply (unknown_route_placeholder None float_str_constant service_down
           "00000" "99999").
  - reflexivity.
  - left. reflexivity.
Defined.

(** C9. For two codes of the table the fallback returns, in either
    direction, the same distance: the great-circle distance between the
    two places. *)
Theorem haversine_fallback_symmetric (zip_a zip_b : string) :
  zip_in_db zip_a = true -> zip_in_db zip_b = true ->
  exists r_ab r_ba,
    fallback_distance_calculation zip_a zip_b = Ok r_ab /\
    fallback_distance_calculation zip_b zip_a = Ok r_ba /\
    dr_distance_miles r_ab = dr_distance_miles r_ba.
Proof.
  intros Ha Hb.
  destruct (zip_get_of_in _ Ha) as [la Hla].
  destruct (zip_get_of_in _ Hb) as [lb Hlb].
  rewrite (fallback_known _ _ _ _ Hla Hlb), (fallback_known _ _ _ _ Hlb Hla).
  do 2 eexists. split; [reflexivity | ]. split; [reflexivity | ].
  simpl. apply great_circle_sym.
Qed.

Lemma haversine_fallback_symmetric_witness :
  exists r_ab r_ba,
    fallback_distance_calculation "90021" "60601" = Ok r_ab /\
    fallback_distance_calculation "60601" "90021" = Ok r_ba /\
    dr_distance_miles r_ab = dr_distance_miles r_ba.
Proof.
  apply (haversine_fallback_symmetric "90021" "60601"); reflexivity.
Defined.

(** * The route map *)

(** C10. A quote carries a map URL exactly when the credential is set and
    both codes are in the table, and every such URL ends with the
    credential itself as the value of its [access_token] parameter. *)
Theorem map_url_discloses_token
        (key : option string) (float_str : R -> string)
        (requests_get : string -> list (string * string) -> HttpOutcome)
        (now valid : string) (request : QuoteRequest) (q : QuoteResponse) :
  calculate_quote key float_str requests_get now valid request = Ok q ->
  (route_map_url q <> None <->
   api_key_set key = true /\
   zip_in_db (origin_zip request) = true /\
   zip_in_db (destination_zip request) = true) /\
  (forall url,
      route_map_url q = Some url ->
      exists token,
        key = Some token /\ token <> "" /\
        ends_with ("?access_token=" ++ token) url).
Proof.
  intros Hq.
  destruct (calculate_quote_resolved _ _ _ _ _ _ _ Hq) as [rd Hrd].
  destruct (calculate_quote_fields key float_str requests_get now valid
              request rd Hrd) as (q' & Hq' & _ & _ & _ & _ & Hurl).
  rewrite Hq in Hq'. injection Hq' as <-.
  rewrite Hurl. split.
  - apply map_url_produced.
  - intros url H. apply (map_url_suffix _ _ _ _ _ _ H).
Qed.

Lemma map_url_discloses_token_witness :
  exists q url,
    calculate_quote (Some "pk.sample") float_str_constant service_down
      "20240115-093000" "2024-01-22T09:30:00" sample_request = Ok q /\
    route_map_url q = Some url /\
    ends_with "?access_token=pk.sample" url.
Proof.
  destruct (fallback_returns "90021" "60601") as (rd & Hrd & _).
  rewrite <- (resolve_unusable (Some "pk.sample") float_str_constant
                service_down "90021" "60601") in Hrd
    by (intros url params; apply Unusable_network; reflexivity).
  destruct (calculate_quote_fields (Some "pk.sample") float_str_constant
              service_down "20240115-093000" "2024-01-22T09:30:00"
              sample_request rd Hrd) as (q & Hq & _).
  destruct (map_url_discloses_token (Some "pk.sample") float_str_constant
              service_down "20240115-093000" "2024-01-22T09:30:00"
              sample_request q Hq) as [Hproduced Hsuffix].
  exists q.
  destruct (route_map_url q) as [url | ] eqn:Hurl.
  - exists url. split; [exact Hq | ]. split; [reflexivity | ].
    destruct (Hsuffix url eq_refl) as (token & Hkey & _ & Hends).
    injection Hkey as <-. exact Hends.
  - exfalso. apply Hproduced; [ | reflexivity].
    repeat split; reflexivity.
Defined.

(** * Worked examples *)

(** The keys of the table are distinct, so looking a code up in the list
    finds the entry the dictionary holds. *)
Lemma zip_keys_distinct : NoDup (map fst ZIP_DATABASE).
Proof.
  simpl. repeat (constructor; [simpl; intuition discriminate | ]).
  constructor.
Qed.

Lemma math_ceil_unique (x : R) (n : Z) :
  IZR n - 1 < x <= IZR n -> math_ceil x = n.
Proof.
  intros [Hlo Hhi].
  destruct (math_ceil_spec x) as [Clo Chi].
  assert (H1 : IZR n - 1 < IZR (math_ceil x)) by lra.
  assert (H2 : IZR (math_ceil x) - 1 < IZR n) by lra.
  rewrite <- minus_IZR in H1, H2.
  apply lt_IZR in H1, H2. lia.
Qed.

Example normalize_mixed_case :
  normalize_service "Climate Control" = "climate_control".
Proof. reflexivity. Qed.

Example liftgate_match_is_case_sensitive :
  p_liftgate_fee
    (price (mkQuoteRequest "90021" "60601" 800 2 (mkDimensions 48 40 36)
                           ["Liftgate"] "2024-01-15" "electronics")
           1745 29) = 0.0.
Proof. reflexivity. Qed.

Example placeholder_route_price :
  let p := price unknown_route_request 1000.0 16.0 in
  p_base_rate p = 2400 /\ p_fuel_surcharge p = 360 /\ p_insurance p = 1000 /\
  p_total_cost p = 3760 /\ p_transit_days p = 2%Z /\
  p_equipment_type p = "dry_van".
Proof.
  simpl. unfold py_max.
  destruct (Rlt_dec _ _) as [H | H]; [exfalso; lra | ].
  replace (math_ceil (16.0 / 8)) with 2%Z
    by (symmetry; apply math_ceil_unique; simpl; lra).
  destruct (Rlt_dec _ _) as [Hw | Hw]; [exfalso; lra | ].
  repeat split; lra.
Qed.

Example short_haul_pays_the_minimum :
  p_base_rate (price sample_request 10 0.2) = 500.
Proof.
  simpl. unfold py_max.
  destruct (Rlt_dec _ _) as [H | H]; lra.
Qed.

Example map_url_digits :
  str_of_Z 8 ++ "/" ++ str_of_Z 600 ++ "x" ++ str_of_Z 400 = "8/600x400".
Proof. reflexivity. Qed.

(** * Further properties of the quote service *)

(** ** Helpers *)

Lemma Int_part_monotone (x y : R) : x <= y -> (Int_part x <= Int_part y)%Z.
Proof.
  intros H.
  destruct (Int_part_bounds x) as [Hx _].
  destruct (Int_part_bounds y) as [_ Hy].
  assert (Hlt : IZR (Int_part x) < IZR (Int_part y + 1)).
  { rewrite plus_IZR. lra. }
  apply lt_IZR in Hlt. lia.
Qed.

Lemma round_half_even_range (y : R) :
  (Int_part y <= round_half_even y <= Int_part y + 1)%Z.
Proof.
  unfold round_half_even.
  destruct (Rlt_dec _ _); [lia | ].
  destruct (Rlt_dec _ _); [lia | ].
  destruct (Z.even _); lia.
Qed.

Lemma round_half_even_monotone (x y : R) :
  x <= y -> (round_half_even x <= round_half_even y)%Z.
Proof.
  intros H.
  pose proof (Int_part_monotone x y H) as Hf.
  pose proof (round_half_even_range x) as Rx.
  pose proof (round_half_even_range y) as Ry.
  destruct (Z.eq_dec (Int_part x) (Int_part y)) as [Heq | Hne]; [ | lia].
  clear Rx Ry. unfold round_half_even. rewrite <- Heq.
  destruct (Rlt_dec (x - IZR (Int_part x)) (1 / 2)) as [X1 | X1].
  - destruct (Rlt_dec (y - IZR (Int_part x)) (1 / 2)); [lia | ].
    destruct (Rlt_dec (1 / 2) (y - IZR (Int_part x))); [lia | ].
    destruct (Z.even _); lia.
  - destruct (Rlt_dec (y - IZR (Int_part x)) (1 / 2)) as [Y1 | Y1]; [lra | ].
    destruct (Rlt_dec (1 / 2) (x - IZR (Int_part x))) as [X2 | X2].
    + destruct (Rlt_dec (1 / 2) (y - IZR (Int_part x))); [lia | lra].
    + destruct (Rlt_dec (1 / 2) (y - IZR (Int_part x))).
      * destruct (Z.even _); lia.
      * lia.
Qed.

Lemma py_round_cents_monotone (x y : R) :
  x <= y -> py_round x 2 <= py_round y 2.
Proof.
  intros H. rewrite !py_round_cents.
  assert (Hz : (round_half_even (x * 100) <= round_half_even (y * 100))%Z).
  { apply round_half_even_monotone. lra. }
  apply IZR_le in Hz. lra.
Qed.


(** The resolver always returns. *)
Lemma resolve_returns (key : option string) (float_str : R -> string)
      (requests_get : string -> list (string * string) -> HttpOutcome)
      (origin_zip dest_zip : string) :
  exists r,
    get_mapbox_distance key float_str requests_get origin_zip dest_zip = Ok r.
Proof.
  destruct (resolve_cases key float_str requests_get origin_zip dest_zip)
    as [Hfall | Hlive].
  - destruct (fallback_returns origin_zip dest_zip) as (r & Hr & _).
    exists r. rewrite Hfall. exact Hr.
  - destruct Hlive as (url & params & r & rs & m & s & g & H).
    eexists. apply H.
Qed.

(** ** The endpoint *)

(** X1. The quote endpoint never answers with the internal error: for
    every credential, every request, and every behaviour of the routing
    service in which the figures of a route are finite numbers,
    [create_quote] returns a quote. *)
Theorem create_quote_never_fails
        (key : option string) (float_str : R -> string)
        (requests_get : string -> list (string * string) -> HttpOutcome)
        (now valid : string) (exception_str : pyexn -> string)
        (request : QuoteRequest) :
  exists q,
    create_quote key float_str requests_get now valid exception_str request
    = inl q /\
    calculate_quote key float_str requests_get now valid request = Ok q.
Proof.
  destruct (resolve_returns key float_str requests_get
              (origin_zip request) (destination_zip request)) as [rd Hrd].
  destruct (calculate_quote_fields key float_str requests_get now valid
              request rd Hrd) as (q & Hq & _).
  exists q. unfold create_quote. rewrite Hq. split; reflexivity.
Qed.

(** ** The live route *)

(** X2. With a credential and two known codes, a 200 answer whose first
    route is complete is used as it is: metres times 0.000621371, seconds
    over 3600, and the geometry passed on.  Further routes are ignored. *)
Theorem live_route_is_converted
        (key : option string) (float_str : R -> string)
        (requests_get : string -> list (string * string) -> HttpOutcome)
        (origin_zip dest_zip : string)
        (meters seconds : R) (geometry : Geometry) (others : list Route) :
  api_key_set key = true ->
  zip_in_db origin_zip = true -> zip_in_db dest_zip = true ->
  (forall url params,
      requests_get url params
      = Response 200 (Routes (mkRoute (Some meters) (Some seconds)
                                      (Some geometry) :: others))) ->
  get_mapbox_distance key float_str requests_get origin_zip dest_zip
  = Ok (mkDistanceResult (meters * 0.000621371) (seconds / 3600) geometry).
Proof.
  intros Hkey Ho Hd Hhttp.
  unfold get_mapbox_distance. rewrite Hkey, Ho, Hd. cbn [negb orb].
  destruct (zip_get_of_in _ Ho) as [l1 H1].
  destruct (zip_get_of_in _ Hd) as [l2 H2].
  unfold zip_getitem. rewrite H1, H2. cbn [getitem bind].
  rewrite Hhttp. reflexivity.
Qed.

Lemma live_route_is_converted_witness :
  get_mapbox_distance (Some "pk.sample") float_str_constant
    (service_route 3243000 104400) "90021" "60601"
  = Ok (mkDistanceResult (3243000 * 0.000621371) (104400 / 3600)
                         (Some (mkGeoJSON "LineString" []))).
Proof.
  apply (live_route_is_converted (Some "pk.sample") float_str_constant
           (service_route 3243000 104400) "90021" "60601"
           3243000 104400 (Some (mkGeoJSON "LineString" [])) []);
    reflexivity.
Defined.

(** X3. The resolver consults the routing service through one request
    only, and only with a credential and two known codes: the URL lists
    each point longitude first, and the parameters carry the credential.
    Two services that agree on that request give the same result. *)
Theorem resolver_consults_service_once
        (key : option string) (float_str : R -> string)
        (service service' : string -> list (string * string) -> HttpOutcome)
        (origin_zip dest_zip : string) :
  (forall origin dest,
      api_key_set key = true ->
      zip_get origin_zip = Some origin -> zip_get dest_zip = Some dest ->
      let url :=
        "https://api.mapbox.com/directions/v5/mapbox/driving/"
        ++ float_str (lon origin) ++ "," ++ float_str (lat origin) ++ ";"
        ++ float_str (lon dest) ++ "," ++ float_str (lat dest) in
      let params :=
        [("access_token", api_key_text key);
         ("geometries", "geojson"); ("overview", "full")] in
      service url params = service' url params) ->
  get_mapbox_distance key float_str service origin_zip dest_zip
  = get_mapbox_distance key float_str service' origin_zip dest_zip.
Proof.
  intros Hagree. unfold get_mapbox_distance.
  destruct (api_key_set key) eqn:Hkey; cbn [negb]; [ | reflexivity].
  destruct (zip_in_db origin_zip) eqn:Ho; cbn [negb orb]; [ | reflexivity].
  destruct (zip_in_db dest_zip) eqn:Hd; cbn [negb orb]; [ | reflexivity].
  destruct (zip_get_of_in _ Ho) as [l1 H1].
  destruct (zip_get_of_in _ Hd) as [l2 H2].
  unfold zip_getitem. rewrite H1, H2. cbn [getitem bind].
  rewrite (Hagree l1 l2 eq_refl H1 H2). reflexivity.
Qed.

Lemma resolver_consults_service_once_witness :
  get_mapbox_distance (Some "pk.sample") float_str_constant service_down
    "90021" "60601"
  = get_mapbox_distance (Some "pk.sample") float_str_constant
      (fun url params =>
         if String.eqb url
              "https://api.mapbox.com/directions/v5/mapbox/driving/0.0,0.0;0.0,0.0"
         then RequestFailed
         else service_route 3243000 104400 url params)
      "90021" "60601".
Proof.
  apply (resolver_consults_service_once (Some "pk.sample") float_str_constant
           service_down _ "90021" "60601").
  intros origin dest _ _ _. reflexivity.
Defined.

(** ** The fallback distance *)

Lemma great_circle_same_point (radius lat1 lon1 : R) :
  great_circle radius lat1 lon1 lat1 lon1 = 0.
Proof.
  unfold great_circle, hav.
  replace (deg lat1 - deg lat1) with 0 by ring.
  replace (deg lon1 - deg lon1) with 0 by ring.
  rewrite cos_0.
  replace ((1 - 1) / 2 + cos (deg lat1) * cos (deg lat1) * ((1 - 1) / 2))
    with 0 by field.
  rewrite sqrt_0, asin_0. ring.
Qed.

(** X4. From a code of the table to itself the fallback gives a distance
    and a duration of exactly zero. *)
Theorem fallback_same_zip_is_zero (zip : string) :
  zip_in_db zip = true ->
  fallback_distance_calculation zip zip = Ok (mkDistanceResult 0 0 None).
Proof.
  intros Hin. destruct (zip_get_of_in _ Hin) as [loc Hloc].
  rewrite (fallback_known _ _ _ _ Hloc Hloc).
  rewrite great_circle_same_point.
  replace (0 / 60) with 0 by field. reflexivity.
Qed.

Lemma fallback_same_zip_is_zero_witness :
  fallback_distance_calculation "60601" "60601"
  = Ok (mkDistanceResult 0 0 None).
Proof.
  apply (fallback_same_zip_is_zero "60601"). reflexivity.
Defined.

(** X5. Whatever the two codes, the fallback distance is at most half the
    circumference of a sphere of radius 3959 miles, and the fallback
    carries no route geometry. *)
Theorem fallback_distance_bounded (origin_zip dest_zip : string) :
  exists r,
    fallback_distance_calculation origin_zip dest_zip = Ok r /\
    0 <= dr_distance_miles r <= 3959 * PI /\
    dr_route_geometry r = None.
Proof.
  pose proof PI2_3_2 as Hpi.
  destruct (zip_in_db origin_zip) eqn:E1;
    [destruct (zip_in_db dest_zip) eqn:E2 | ].
  - destruct (zip_get_of_in _ E1) as [l1 H1].
    destruct (zip_get_of_in _ E2) as [l2 H2].
    rewrite (fallback_known _ _ _ _ H1 H2).
    eexists. split; [reflexivity | ]. cbn [dr_distance_miles dr_route_geometry].
    split; [ | reflexivity].
    split; [apply great_circle_nonneg | ].
    unfold great_circle.
    match goal with |- 2 * 3959 * asin ?x <= _ =>
      pose proof (asin_bound x) as [_ Hup] end.
    lra.
  - rewrite fallback_unknown by (right; exact E2).
    eexists. split; [reflexivity | ]. simpl. split; [lra | reflexivity].
  - rewrite fallback_unknown by (left; exact E1).
    eexists. split; [reflexivity | ]. simpl. split; [lra | reflexivity].
Qed.

(** ** Prices *)

Lemma py_max_monotone (a b c : R) : a <= b -> py_max a c <= py_max b c.
Proof.
  intros H. rewrite !py_max_Rmax. unfold Rmax.
  destruct (Rle_dec a c), (Rle_dec b c); lra.
Qed.

(** X6. For the same special services, a quote does not get cheaper when
    the distance or the weight grows: neither the exact total nor the
    total rounded to cents. *)
Theorem total_cost_monotone
        (request request' : QuoteRequest)
        (distance distance' duration duration' : R) :
  special_services request = special_services request' ->
  weight_lbs request <= weight_lbs request' ->
  distance <= distance' ->
  let p := price request distance duration in
  let p' := price request' distance' duration' in
  p_total_cost p <= p_total_cost p' /\
  py_round (p_total_cost p) 2 <= py_round (p_total_cost p') 2.
Proof.
  intros Hs Hw Hd p p'.
  assert (Hexact : p_total_cost p <= p_total_cost p').
  { unfold p, p'. cbn [price p_total_cost]. rewrite <- Hs.
    assert (Hb : py_max (distance * 2.0 + weight_lbs request * 0.50) 500.0
                 <= py_max (distance' * 2.0 + weight_lbs request' * 0.50)
                           500.0)
      by (apply py_max_monotone; lra).
    lra. }
  split; [exact Hexact | apply py_round_cents_monotone; exact Hexact].
Qed.

Lemma total_cost_monotone_witness :
  p_total_cost (price sample_request 100 2)
  <= p_total_cost (price sample_request 1745 29).
Proof.
  apply (total_cost_monotone sample_request sample_request 100 1745 2 29).
  - reflexivity.
  - lra.
  - lra.
Defined.

(** X7. No quote for a weight that is not negative is below 575, the
    floor of the base rate and its fuel surcharge, whatever finite figures
    the routing service reports. *)
Theorem quote_total_at_least_minimum
        (key : option string) (float_str : R -> string)
        (requests_get : string -> list (string * string) -> HttpOutcome)
        (now valid : string) (request : QuoteRequest) (q : QuoteResponse) :
  calculate_quote key float_str requests_get now valid request = Ok q ->
  0 <= weight_lbs request ->
  575 <= total_cost q.
Proof.
  intros Hq Hw.
  destruct (calculate_quote_resolved _ _ _ _ _ _ _ Hq) as [rd Hrd].
  destruct (calculate_quote_fields key float_str requests_get now valid
              request rd Hrd) as (q' & Hq' & Htotal & _).
  rewrite Hq in Hq'. injection Hq' as <-.
  rewrite Htotal. apply (py_round_cents_lower 575).
  cbn [price p_total_cost].
  pose proof (Rmax_r (dr_distance_miles rd * 2.0 + weight_lbs request * 0.50)
                     500.0) as Hb.
  rewrite <- py_max_Rmax in Hb.
  set (b := py_max _ 500.0) in *.
  destruct (str_in "liftgate" _); destruct (str_in "climate_control" _); lra.
Qed.

Lemma quote_total_at_least_minimum_witness :
  exists q,
    calculate_quote None float_str_constant service_down
      "20240115-093000" "2024-01-22T09:30:00" unknown_route_request = Ok q /\
    575 <= total_cost q.
Proof.
  destruct (resolve_returns None float_str_constant service_down
              "00000" "99999") as [rd Hrd].
  destruct (calculate_quote_fields None float_str_constant service_down
              "20240115-093000" "2024-01-22T09:30:00" unknown_route_request
              rd Hrd) as (q & Hq & _).
  exists q. split; [exact Hq | ].
  apply (quote_total_at_least_minimum None float_str_constant service_down
           "20240115-093000" "2024-01-22T09:30:00" unknown_route_request q Hq).
  simpl. lra.
Defined.

(** ** Equipment, transit days and service names *)

(** X9. The equipment agrees with the rest of the price: it is one of
    three kinds; a flatbed exactly above 10000 lb; a reefer always pays
    the climate control fee, and a dry van never does. *)
Theorem equipment_consistent_with_fees
        (request : QuoteRequest) (distance duration : R) :
  let p := price request distance duration in
  (p_equipment_type p = "flatbed" \/ p_equipment_type p = "reefer" \/
   p_equipment_type p = "dry_van") /\
  (p_equipment_type p = "flatbed" <-> 10000 < weight_lbs request) /\
  (p_equipment_type p = "reefer" -> p_climate_control_fee p = 150.0) /\
  (p_equipment_type p = "dry_van" -> p_climate_control_fee p = 0.0).
Proof.
  intros p. unfold p. cbn [price p_equipment_type p_climate_control_fee].
  destruct (Rlt_dec 10000 (weight_lbs request)) as [Hw | Hw].
  - repeat split; auto; discriminate.
  - destruct (str_in "climate_control" _).
    + repeat split; auto; try discriminate; intros; lra.
    + repeat split; auto; try discriminate; intros; lra.
Qed.

Lemma equipment_consistent_with_fees_witness :
  p_climate_control_fee (price climate_request 1745 29) = 150.0.
Proof.
  apply (equipment_consistent_with_fees climate_request 1745 29).
  simpl. destruct (Rlt_dec 10000 800) as [H | H]; [lra | reflexivity].
Defined.



Lemma normalize_char_idempotent (c : ascii) :
  (let g := fun x : ascii =>
              if Ascii.eqb (lower_ascii x) " " then "_"%char
              else lower_ascii x in
   g (g c) = g c).
Proof.
  destruct c as [b0 b1 b2 b3 b4 b5 b6 b7].
  destruct b0, b1, b2, b3, b4, b5, b6, b7; reflexivity.
Qed.

Lemma normalize_service_idempotent (s : string) :
  normalize_service (normalize_service s) = normalize_service s.
Proof.
  unfold normalize_service.
  induction s as [ | c s IH]; [reflexivity | ].
  cbn [str_lower replace_space_underscore]. f_equal.
  - apply (normalize_char_idempotent c).
  - exact IH.
Qed.

Lemma normalized_services_idempotent (services : list string) :
  normalized_services (normalized_services services)
  = normalized_services services.
Proof.
  unfold normalized_services. rewrite map_map.
  apply map_ext. intros s. apply normalize_service_idempotent.
Qed.

(** X11. Writing the special services in their normalized form (lower
    case, underscores for spaces) leaves the climate control fee and the
    equipment as they were, and can only add the liftgate fee: the
    liftgate test alone looks at the names as given. *)
Theorem normalizing_services_keeps_climate_fee
        (request request' : QuoteRequest) (distance duration : R) :
  special_services request' = normalized_services (special_services request) ->
  weight_lbs request' = weight_lbs request ->
  let p := price request distance duration in
  let p' := price request' distance duration in
  p_climate_control_fee p' = p_climate_control_fee p /\
  p_equipment_type p' = p_equipment_type p /\
  p_liftgate_fee p <= p_liftgate_fee p'.
Proof.
  intros Hs Hw p p'. unfold p, p'.
  cbn [price p_climate_control_fee p_equipment_type p_liftgate_fee].
  rewrite Hs, Hw, normalized_services_idempotent.
  repeat split.
  destruct (str_in "liftgate" (special_services request)) eqn:E.
  - apply str_in_In in E.
    assert (Hin : In "liftgate" (normalized_services (special_services request))).
    { unfold normalized_services. apply in_map_iff.
      exists "liftgate". split; [reflexivity | exact E]. }
    apply str_in_In in Hin. rewrite Hin. apply Rle_refl.
  - destruct (str_in "liftgate"
                     (normalized_services (special_services request))); lra.
Qed.

Lemma normalizing_services_keeps_climate_fee_witness :
  p_climate_control_fee
    (price (mkQuoteRequest "90021" "60601" 800 2 (mkDimensions 48 40 36)
                           ["climate_control"] "2024-01-15" "produce")
           1745 29)
  = p_climate_control_fee (price climate_request 1745 29).
Proof.
  apply (normalizing_services_keeps_climate_fee climate_request
           (mkQuoteRequest "90021" "60601" 800 2 (mkDimensions 48 40 36)
                           ["climate_control"] "2024-01-15" "produce")
           1745 29); reflexivity.
Defined.

(** * Checking an extraction *)

Section ExtractionProperties.

Import Json.

Lemma quantity_check (v : json) :
  (if negb (truthy v) then Return true else py_le_zero v) = Return false
  <-> passes_for_quantity v.
Proof.
  unfold passes_for_quantity. split.
  - destruct v as [ | [ | ] | x | | [ | ] | s | items | entries]; cbn;
      try discriminate.
    + intros _. right. left. reflexivity.
    + destruct (Req_dec_T x 0) as [Hz | Hz]; cbn; [discriminate | ].
      destruct (Rle_dec x 0) as [Hle | Hle]; [discriminate | ].
      intros _. left. exists x. split; [reflexivity | lra].
    + intros _. right. right. right. reflexivity.
    + intros _. right. right. left. reflexivity.
    + destruct (String.eqb s ""); discriminate.
    + destruct items; discriminate.
    + destruct entries; discriminate.
  - intros [[x [-> Hx]] | [-> | [-> | ->]]]; cbn; try reflexivity.
    destruct (Req_dec_T x 0) as [Hz | Hz]; cbn; [lra | ].
    destruct (Rle_dec x 0) as [Hle | Hle]; [lra | reflexivity].
Qed.

(** X12. An extraction passes the check exactly when it is a dictionary
    whose [origin] and [destination] are dictionaries with a [zip] that is
    true, and whose [cargo] is a dictionary whose [weight_lbs] and
    [pieces] each pass for a quantity: a number above zero, [True],
    [Infinity] or [NaN].  Nothing else is looked at. *)
Theorem validate_extraction_accepts_iff (data : json) :
  llm_extractor.validate_extraction data = Return (true, "")
  <->
  exists entries origin destination cargo origin_zip destination_zip
         weight pieces,
    data = JDict entries /\
    dict_find "origin" entries = Some (JDict origin) /\
    dict_find "zip" origin = Some origin_zip /\
    truthy origin_zip = true /\
    dict_find "destination" entries = Some (JDict destination) /\
    dict_find "zip" destination = Some destination_zip /\
    truthy destination_zip = true /\
    dict_find "cargo" entries = Some (JDict cargo) /\
    dict_find "weight_lbs" cargo = Some weight /\
    passes_for_quantity weight /\
    dict_find "pieces" cargo = Some pieces /\
    passes_for_quantity pieces.
Proof.
  unfold llm_extractor.validate_extraction. split.
  - intros H.
    destruct data as [ | | | | | | | entries]; try discriminate H.
    cbn [py_get and_then] in H.
    destruct (dict_find "origin" entries) as [[ | | | | | | | origin] | ] eqn:Eo;
      try (cbn in H; discriminate H).
    cbn [py_get and_then] in H.
    destruct (dict_find "zip" origin) as [origin_zip | ] eqn:Eoz;
      [ | cbn in H; discriminate H].
    destruct (truthy origin_zip) eqn:Toz; cbn [negb] in H;
      [ | discriminate H].
    destruct (dict_find "destination" entries)
      as [[ | | | | | | | destination] | ] eqn:Ed; try (cbn in H; discriminate H).
    cbn [py_get and_then] in H.
    destruct (dict_find "zip" destination) as [destination_zip | ] eqn:Edz;
      [ | cbn in H; discriminate H].
    destruct (truthy destination_zip) eqn:Tdz; cbn [negb] in H;
      [ | discriminate H].
    destruct (dict_find "cargo" entries) as [[ | | | | | | | cargo] | ] eqn:Ec;
      try (cbn in H; discriminate H).
    cbn [py_get and_then] in H.
    destruct (dict_find "weight_lbs" cargo) as [weight | ] eqn:Ew;
      [ | cbn in H; discriminate H].
    destruct (if negb (truthy weight) then Return true else py_le_zero weight)
      as [[ | ] | e] eqn:Qw; cbn [and_then] in H; try discriminate H.
    destruct (dict_find "pieces" cargo) as [pieces | ] eqn:Ep;
      [ | cbn in H; discriminate H].
    destruct (if negb (truthy pieces) then Return true else py_le_zero pieces)
      as [[ | ] | e] eqn:Qp; cbn [and_then] in H; try discriminate H.
    apply quantity_check in Qw, Qp.
    exists entries, origin, destination, cargo, origin_zip, destination_zip,
      weight, pieces.
    repeat split; assumption.
  - intros (entries & origin & destination & cargo & origin_zip
            & destination_zip & weight & pieces & -> & Eo & Eoz & Toz
            & Ed & Edz & Tdz & Ec & Ew & Pw & Ep & Pp).
    apply quantity_check in Pw, Pp.
    cbn [py_get and_then]. rewrite Eo. cbn [py_get and_then].
    rewrite Eoz, Toz. cbn [negb].
    rewrite Ed. cbn [py_get and_then]. rewrite Edz, Tdz. cbn [negb].
    rewrite Ec. cbn [py_get and_then]. rewrite Ew, Pw. cbn [and_then].
    rewrite Ep, Pp. reflexivity.
Qed.

(** X13. A section that is present but is not a dictionary, such as the
    [null] the model is told to use for missing information, makes the
    check raise [AttributeError] instead of returning a message; a
    section that is absent altogether is reported as a missing zip
    code. *)
Theorem validate_extraction_section_not_a_dictionary
        (entries : list (string * json)) :
  (forall v,
      dict_find "origin" entries = Some v ->
      (forall fields, v <> JDict fields) ->
      llm_extractor.validate_extraction (JDict entries)
      = Throw AttributeError) /\
  (dict_find "origin" entries = None ->
   llm_extractor.validate_extraction (JDict entries)
   = Return (false, "Missing origin zip code")).
Proof.
  unfold llm_extractor.validate_extraction. split.
  - intros v Hv Hnot. cbn [py_get and_then]. rewrite Hv.
    destruct v; try reflexivity.
    exfalso. eapply Hnot. reflexivity.
  - intros Hnone. cbn [py_get and_then]. rewrite Hnone. reflexivity.
Qed.

Lemma validate_extraction_section_not_a_dictionary_witness :
  llm_extractor.validate_extraction
    (JDict [("origin", JNull); ("destination", JNull); ("cargo", JNull)])
  = Throw AttributeError /\
  llm_extractor.validate_extraction (JDict [("cargo", JNull)])
  = Return (false, "Missing origin zip code").
Proof.
  split.
  - apply (validate_extraction_section_not_a_dictionary
             [("origin", JNull); ("destination", JNull); ("cargo", JNull)])
      with (v := JNull).
    + reflexivity.
    + intros fields. discriminate.
  - apply (validate_extraction_section_not_a_dictionary [("cargo", JNull)]).
    reflexivity.
Defined.

(** X14. A weight given as text, such as ["800 lbs"], is not rejected
    with a message: once both zip codes are there, comparing it with zero
    raises [TypeError]. *)
Theorem validate_extraction_text_weight
        (entries origin destination cargo : list (string * json))
        (origin_zip destination_zip : json) (text : string) :
  dict_find "origin" entries = Some (JDict origin) ->
  dict_find "zip" origin = Some origin_zip ->
  truthy origin_zip = true ->
  dict_find "destination" entries = Some (JDict destination) ->
  dict_find "zip" destination = Some destination_zip ->
  truthy destination_zip = true ->
  dict_find "cargo" entries = Some (JDict cargo) ->
  dict_find "weight_lbs" cargo = Some (JStr text) ->
  text <> "" ->
  llm_extractor.validate_extraction (JDict entries) = Throw TypeError.
Proof.
  intros Eo Eoz Toz Ed Edz Tdz Ec Ew Htext.
  unfold llm_extractor.validate_extraction.
  cbn [py_get and_then]. rewrite Eo. cbn [py_get and_then].
  rewrite Eoz, Toz. cbn [negb].
  rewrite Ed. cbn [py_get and_then]. rewrite Edz, Tdz. cbn [negb].
  rewrite Ec. cbn [py_get and_then]. rewrite Ew.
  cbn [truthy]. apply String.eqb_neq in Htext. rewrite Htext. reflexivity.
Qed.

Lemma validate_extraction_text_weight_witness :
  llm_extractor.validate_extraction
    (JDict [("origin", JDict [("zip", JStr "90021")]);
            ("destination", JDict [("zip", JStr "60601")]);
            ("cargo", JDict [("weight_lbs", JStr "800 lbs");
                             ("pieces", JNum 2)])])
  = Throw TypeError.
Proof.
  apply (validate_extraction_text_weight
           [("origin", JDict [("zip", JStr "90021")]);
            ("destination", JDict [("zip", JStr "60601")]);
            ("cargo", JDict [("weight_lbs", JStr "800 lbs");
                             ("pieces", JNum 2)])]
           [("zip", JStr "90021")] [("zip", JStr "60601")]
           [("weight_lbs", JStr "800 lbs"); ("pieces", JNum 2)]
           (JStr "90021") (JStr "60601") "800 lbs");
    (reflexivity || discriminate).
Defined.

End ExtractionProperties.

Lemma validate_extraction_accepts_iff_witness :
  llm_extractor.validate_extraction sample_shipment = Json.Return (true, "") /\
  llm_extractor.validate_extraction
    (Json.JDict
       [("origin", Json.JDict [("zip", Json.JStr "90021")]);
        ("destination", Json.JDict [("zip", Json.JStr "60601")]);
        ("cargo", Json.JDict [("weight_lbs", Json.JNaN);
                              ("pieces", Json.JBool true)])])
  = Json.Return (true, "").
Proof.
  split.
  - apply (proj2 (validate_extraction_accepts_iff sample_shipment)).
    unfold sample_shipment. do 8 eexists.
    refine (conj eq_refl (conj _ (conj _ (conj _ (conj _ (conj _
             (conj _ (conj _ (conj _ (conj _ (conj _ _))))))))))).
    all: try reflexivity.
    + left. exists 800. split; [reflexivity | lra].
    + left. exists 2. split; [reflexivity | lra].
  - apply (proj2 (validate_extraction_accepts_iff _)).
    do 8 eexists.
    refine (conj eq_refl (conj _ (conj _ (conj _ (conj _ (conj _
             (conj _ (conj _ (conj _ (conj _ (conj _ _))))))))))).
    all: try reflexivity.
    + right. right. right. reflexivity.
    + right. left. reflexivity.
Defined.

(** * Recognising a quote request *)

Lemma prefix_spec (needle haystack : string) :
  String.prefix needle haystack = true
  <-> exists post, haystack = needle ++ post.
Proof.
  revert haystack. induction needle as [ | a needle IH]; intros haystack.
  - destruct haystack; simpl; split; intros _; try reflexivity; eexists;
      reflexivity.
  - destruct haystack as [ | b haystack]; simpl.
    + split; [discriminate | intros [post H]; discriminate H].
    + destruct (Ascii.ascii_dec a b) as [-> | Hne].
      * rewrite IH. split; intros [post H]; exists post.
        -- rewrite H. reflexivity.
        -- injection H as H. exact H.
      * split; [discriminate | ].
        intros [post H]. injection H as Hb _. congruence.
Qed.

(** The substring test is what its name says. *)
Lemma str_contains_spec (needle haystack : string) :
  email_handler.str_contains needle haystack = true
  <-> exists pre post, haystack = pre ++ needle ++ post.
Proof.
  induction haystack as [ | c haystack IH].
  - change (email_handler.str_contains needle "")
      with (String.prefix needle "" || false).
    rewrite orb_false_r. rewrite prefix_spec. split.
    + intros [post H]. exists "", post. exact H.
    + intros [pre [post H]]. destruct pre; [ | discriminate H].
      exists post. exact H.
  - change (email_handler.str_contains needle (String c haystack))
      with (String.prefix needle (String c haystack)
            || email_handler.str_contains needle haystack).
    rewrite orb_true_iff, prefix_spec, IH. split.
    + intros [[post H] | [pre [post H]]].
      * exists "", post. exact H.
      * exists (String c pre), post. rewrite H. reflexivity.
    + intros [pre [post H]]. destruct pre as [ | c' pre].
      * left. exists post. exact H.
      * right. injection H as _ H. exists pre, post. exact H.
Qed.

Lemma str_contains_inside (needle haystack before after : string) :
  email_handler.str_contains needle haystack = true ->
  email_handler.str_contains needle (before ++ haystack ++ after) = true.
Proof.
  rewrite !str_contains_spec. intros [pre [post ->]].
  exists (before ++ pre), (post ++ after).
  rewrite !str_append_assoc. reflexivity.
Qed.

Lemma str_contains_part (part rest haystack : string) :
  email_handler.str_contains (part ++ rest) haystack = true ->
  email_handler.str_contains part haystack = true.
Proof.
  rewrite !str_contains_spec. intros [pre [post ->]].
  exists pre, (rest ++ post). rewrite !str_append_assoc. reflexivity.
Qed.

Lemma str_lower_app (a b : string) :
  str_lower (a ++ b) = str_lower a ++ str_lower b.
Proof.
  induction a as [ | c a IH]; simpl; [reflexivity | ].
  rewrite IH. reflexivity.
Qed.

Lemma filter_two_matches {A : Type} (f : A -> bool) (l : list A) (x y : A) :
  In x l -> In y l -> x <> y -> f x = true -> f y = true ->
  (2 <= List.length (filter f l))%nat.
Proof.
  intros Hx Hy Hne Fx Fy.
  assert (Hfx : In x (filter f l)) by (apply filter_In; auto).
  assert (Hfy : In y (filter f l)) by (apply filter_In; auto).
  destruct (filter f l) as [ | a [ | b rest]]; simpl in *.
  - contradiction.
  - destruct Hfx as [<- | []]. destruct Hfy as [<- | []]. congruence.
  - lia.
Qed.

Lemma filter_length_monotone {A : Type} (f g : A -> bool) (l : list A) :
  (forall x, f x = true -> g x = true) ->
  (List.length (filter f l) <= List.length (filter g l))%nat.
Proof.
  intros Himp. induction l as [ | a l IH]; simpl; [lia | ].
  destruct (f a) eqn:Fa.
  - rewrite (Himp a Fa). simpl. lia.
  - destruct (g a); simpl; lia.
Qed.

Lemma keywords_distinct : NoDup email_handler.keywords.
Proof.
  unfold email_handler.keywords.
  repeat (constructor; [simpl; intuition discriminate | ]).
  constructor.
Qed.

(** In the model a message is taken for a quote request exactly when its
    text contains two different keywords. *)
Lemma is_quote_request_iff_two_matches (subject body : string) :
  email_handler.is_quote_request subject body = true
  <->
  exists k1 k2,
    k1 <> k2 /\
    In k1 email_handler.keywords /\ In k2 email_handler.keywords /\
    email_handler.str_contains k1 (str_lower (subject ++ " " ++ body)) = true /\
    email_handler.str_contains k2 (str_lower (subject ++ " " ++ body)) = true.
Proof.
  unfold email_handler.is_quote_request.
  set (text := str_lower (subject ++ " " ++ body)).
  set (f := fun keyword => email_handler.str_contains keyword text).
  rewrite Nat.leb_le. split.
  - intros Hlen.
    pose proof (NoDup_filter f keywords_distinct) as Hnd.
    destruct (filter f email_handler.keywords) as [ | a [ | b rest]] eqn:E;
      simpl in Hlen; try lia.
    assert (Ha : In a (filter f email_handler.keywords))
      by (rewrite E; left; reflexivity).
    assert (Hb : In b (filter f email_handler.keywords))
      by (rewrite E; right; left; reflexivity).
    apply filter_In in Ha, Hb.
    exists a, b. repeat split; try tauto.
    intros ->. inversion Hnd as [ | ? ? Hnotin _]. apply Hnotin. left.
    reflexivity.
  - intros (k1 & k2 & Hne & H1 & H2 & C1 & C2).
    apply (filter_two_matches f _ k1 k2); assumption.
Qed.

(** X15. For a subject and a body of ASCII characters, a message is
    taken for a quote request exactly when the two, joined by a space and
    lower-cased, contain two different keywords of the list. *)
Theorem is_quote_request_two_keywords (subject body : string) :
  str_is_ascii subject = true -> str_is_ascii body = true ->
  (email_handler.is_quote_request subject body = true
   <->
   exists k1 k2,
     k1 <> k2 /\
     In k1 email_handler.keywords /\ In k2 email_handler.keywords /\
     email_handler.str_contains k1 (str_lower (subject ++ " " ++ body))
     = true /\
     email_handler.str_contains k2 (str_lower (subject ++ " " ++ body))
     = true).
Proof.
  intros _ _. apply is_quote_request_iff_two_matches.
Qed.

Lemma is_quote_request_two_keywords_witness :
  email_handler.is_quote_request "Need a QUOTE" "for 2 Pallets" = true /\
  (exists k1 k2,
      k1 <> k2 /\
      In k1 email_handler.keywords /\ In k2 email_handler.keywords /\
      email_handler.str_contains k1 (str_lower ("Freight" ++ " " ++ "500 LBS"))
      = true /\
      email_handler.str_contains k2 (str_lower ("Freight" ++ " " ++ "500 LBS"))
      = true).
Proof.
  split.
  - apply (is_quote_request_two_keywords "Need a QUOTE" "for 2 Pallets");
      try reflexivity.
    exists "quote", "pallet".
    refine (conj _ (conj _ (conj _ (conj _ _)))).
    + discriminate.
    + simpl. tauto.
    + simpl. tauto.
    + vm_compute. reflexivity.
    + vm_compute. reflexivity.
  - apply (is_quote_request_two_keywords "Freight" "500 LBS");
      try reflexivity.
Defined.

(** X16. The keyword [ship] lies inside the keyword [shipping], so a
    message that mentions shipping, in any letter case, is a quote request
    without any second keyword. *)
Theorem shipping_alone_is_a_quote_request (subject body : string) :
  email_handler.str_contains "shipping" (str_lower (subject ++ " " ++ body))
  = true ->
  email_handler.is_quote_request subject body = true.
Proof.
  intros H. apply is_quote_request_iff_two_matches.
  exists "shipping", "ship". repeat split.
  - discriminate.
  - simpl. tauto.
  - simpl. tauto.
  - exact H.
  - apply (str_contains_part "ship" "ping"). exact H.
Qed.

Lemma shipping_alone_is_a_quote_request_witness :
  email_handler.is_quote_request "SHIPPING" "Hello" = true.
Proof.
  apply (shipping_alone_is_a_quote_request "SHIPPING" "Hello").
  vm_compute. reflexivity.
Defined.

(** X17. Text added before the subject or after the body never turns a
    quote request into something else. *)
Theorem is_quote_request_monotone (subject body before after : string) :
  email_handler.is_quote_request subject body = true ->
  email_handler.is_quote_request (before ++ subject) (body ++ after) = true.
Proof.
  unfold email_handler.is_quote_request. rewrite !Nat.leb_le. intros H.
  eapply Nat.le_trans; [exact H | ].
  apply filter_length_monotone. intros keyword Hk.
  replace ((before ++ subject) ++ " " ++ body ++ after)
    with (before ++ (subject ++ " " ++ body) ++ after)
    by (rewrite !str_append_assoc; reflexivity).
  rewrite !str_lower_app. apply str_contains_inside.
  rewrite <- !str_lower_app. exact Hk.
Qed.

Lemma is_quote_request_monotone_witness :
  email_handler.is_quote_request "Re: Freight quote" "Please advise. Thanks"
  = true.
Proof.
  apply (is_quote_request_monotone "Freight quote" "Please advise."
           "Re: " " Thanks").
  vm_compute. reflexivity.
Defined.

(** * Reading the mailbox *)

Lemma py_slice_last {A : Type} (xs : list A) (n : Z) :
  (0 < n)%Z -> (n < Z.of_nat (List.length xs))%Z ->
  email_handler.py_slice_from xs (- n)
  = skipn (List.length xs - Z.to_nat n) xs.
Proof.
  intros Hpos Hlt. unfold email_handler.py_slice_from.
  destruct (Z.ltb_spec (- n) 0); [ | lia].
  f_equal. lia.
Qed.

Lemma flat_map_option_length {A B C : Type} (f : A -> option B)
      (g : A -> B -> C) (l : list A) :
  (List.length
     (flat_map (fun a => match f a with Some b => [g a b] | None => [] end) l)
   <= List.length l)%nat.
Proof.
  induction l as [ | a l IH]; simpl; [lia | ].
  destruct (f a); simpl; lia.
Qed.

(** X19. With a positive limit, [fetch_unread_emails] returns at most
    that many messages, whatever the mailbox does, and each of them is one
    of the last [max_emails] unread ids the search listed. *)
Theorem fetch_unread_emails_is_capped
        (search_unseen : email_handler.SearchOutcome)
        (fetch_message : string -> option email_handler.ParsedMessage)
        (max_emails : Z) :
  (0 < max_emails)%Z ->
  let emails :=
    email_handler.fetch_unread_emails search_unseen fetch_message max_emails in
  (Z.of_nat (List.length emails) <= max_emails)%Z /\
  forall status email_ids email,
    search_unseen = email_handler.SearchResult status email_ids ->
    In email emails ->
    In (email_handler.email_id email)
       (skipn (List.length email_ids - Z.to_nat max_emails) email_ids).
Proof.
  intros Hpos emails. unfold emails, email_handler.fetch_unread_emails.
  destruct search_unseen as [ | status ids]; [split; [simpl; lia | ] | ].
  - intros ? ? ? H. discriminate H.
  - destruct (String.eqb status "OK"); cbn [negb];
      [ | split; [simpl; lia | intros ? ? ? _ []]].
    set (collect := fun id : string =>
                      match fetch_message id with
                      | Some msg => _
                      | None => []
                      end).
    assert (Hsel :
              (if (max_emails <? Z.of_nat (List.length ids))%Z
               then email_handler.py_slice_from ids (- max_emails)
               else ids)
              = skipn (List.length ids - Z.to_nat max_emails) ids).
    { destruct (Z.ltb_spec max_emails (Z.of_nat (List.length ids))).
      - apply py_slice_last; assumption.
      - replace (List.length ids - Z.to_nat max_emails)%nat with 0%nat by lia.
        reflexivity. }
    rewrite Hsel. split.
    + assert (Hlen :
                (List.length
                   (flat_map collect
                      (skipn (List.length ids - Z.to_nat max_emails) ids))
                 <= List.length
                      (skipn (List.length ids - Z.to_nat max_emails) ids))%nat).
      { unfold collect.
        apply (flat_map_option_length fetch_message
                 (fun id msg =>
                    email_handler.mkEmail id
                      (email_handler.parsed_from_email msg)
                      (email_handler.parsed_from_name msg)
                      (email_handler.parsed_subject msg)
                      (email_handler.parsed_body msg))). }
      rewrite length_skipn in Hlen. lia.
    + intros status' ids' email Heq Hin. injection Heq as _ <-.
      apply in_flat_map in Hin. destruct Hin as [id [Hid Hin]].
      unfold collect in Hin. destruct (fetch_message id); [ | contradiction].
      destruct Hin as [<- | []]. exact Hid.
Qed.

Lemma fetch_unread_emails_is_capped_witness :
  (Z.of_nat
     (List.length
        (email_handler.fetch_unread_emails
           (email_handler.SearchResult "OK" ["1"; "2"; "3"])
           (fun id => Some (email_handler.mkParsedMessage
                              "Ann" "ann@example.com" "Freight quote" id))
           2))
   <= 2)%Z.
Proof.
  apply (fetch_unread_emails_is_capped
           (email_handler.SearchResult "OK" ["1"; "2"; "3"])
           (fun id => Some (email_handler.mkParsedMessage
                              "Ann" "ann@example.com" "Freight quote" id))
           2).
  lia.
Defined.

(** X20. A limit of zero is no limit: the slice that keeps the last
    [max_emails] ids keeps all of them, and every unread message that can
    be fetched is returned. *)
Theorem fetch_unread_emails_zero_limit
        (fetch_message : string -> option email_handler.ParsedMessage)
        (email_ids : list string) :
  email_handler.fetch_unread_emails
    (email_handler.SearchResult "OK" email_ids) fetch_message 0
  = flat_map
      (fun id =>
         match fetch_message id with
         | Some msg =>
             [email_handler.mkEmail id
                (email_handler.parsed_from_email msg)
                (email_handler.parsed_from_name msg)
                (email_handler.parsed_subject msg)
                (email_handler.parsed_body msg)]
         | None => []
         end)
      email_ids.
Proof.
  unfold email_handler.fetch_unread_emails.
  change (String.eqb "OK" "OK") with true. cbn [negb].
  destruct (0 <? Z.of_nat (List.length email_ids))%Z; [ | reflexivity].
  unfold email_handler.py_slice_from.
  change (- 0 <? 0)%Z with false. cbv iota.
  replace (Z.to_nat (Z.min (- 0) (Z.of_nat (List.length email_ids))))
    with 0%nat by lia.
  reflexivity.
Qed.

(** * The agent *)

Section AgentProperties.

Import Json.

Variable extract_shipment_details : string -> option json.
Variable requests_post : json -> agent.PostOutcome.
Variable generate_quote_pdf : json -> json -> string -> outcome unit.
Variable create_reply_body : json -> json -> outcome string.
Variable send_reply : string -> string -> string -> string -> bool.
Variable today : string.
Variable json_str : json -> string.

(** X21. For an extraction that has the two zip codes, the weight, the
    pieces and the dimensions, [call_quote_api] posts exactly these fields
    with the defaults for what is optional, and returns the answer's body
    when the status is 200 and nothing otherwise. *)
Theorem call_quote_api_posts_extracted_fields
        (entries origin destination cargo : list (string * json))
        (origin_zip destination_zip weight pieces dimensions : json) :
  dict_find "origin" entries = Some (JDict origin) ->
  dict_find "destination" entries = Some (JDict destination) ->
  dict_find "cargo" entries = Some (JDict cargo) ->
  dict_find "zip" origin = Some origin_zip ->
  dict_find "zip" destination = Some destination_zip ->
  dict_find "weight_lbs" cargo = Some weight ->
  dict_find "pieces" cargo = Some pieces ->
  dict_find "dimensions" cargo = Some dimensions ->
  let request_data :=
    JDict [("origin_zip", origin_zip);
           ("destination_zip", destination_zip);
           ("weight_lbs", weight);
           ("pieces", pieces);
           ("dimensions", dimensions);
           ("special_services",
            match dict_find "special_services" entries with
            | Some services => services
            | None => JList []
            end);
           ("pickup_date",
            match dict_find "pickup_date" entries with
            | Some date => date
            | None => JStr today
            end);
           ("commodity",
            match dict_find "commodity" cargo with
            | Some name => name
            | None => JStr "General Freight"
            end)] in
  agent.call_quote_api requests_post today (JDict entries)
  = match requests_post request_data with
    | agent.PostFailed => None
    | agent.PostResponse status_code body =>
        if (status_code =? 200)%Z then body else None
    end.
Proof.
  intros Eo Ed Ec Eoz Edz Ew Ep Edim request_data.
  unfold agent.call_quote_api, agent.build_request_data.
  cbn [py_getitem py_get and_then].
  rewrite Eo, Ed, Ec. cbn [py_getitem py_get and_then].
  rewrite Eoz, Edz, Ew, Ep, Edim. cbn [and_then].
  fold request_data.
  destruct (requests_post request_data) as [ | status_code body];
    [reflexivity | ].
  destruct (status_code =? 200)%Z; [ | reflexivity].
  destruct body; reflexivity.
Qed.

(** X22. The check of an extraction does not look at the dimensions, but
    [call_quote_api] cannot do without them: when the cargo has none, it
    returns nothing, whatever the quote API would have answered. *)
Theorem call_quote_api_without_dimensions
        (entries cargo : list (string * json)) :
  dict_find "cargo" entries = Some (JDict cargo) ->
  dict_find "dimensions" cargo = None ->
  agent.call_quote_api requests_post today (JDict entries) = None.
Proof.
  intros Ec Edim.
  assert (Hc : py_getitem (JDict entries) "cargo" = Return (JDict cargo)).
  { cbn [py_getitem]. rewrite Ec. reflexivity. }
  assert (Hd : py_getitem (JDict cargo) "dimensions" = Throw KeyError).
  { cbn [py_getitem]. rewrite Edim. reflexivity. }
  unfold agent.call_quote_api, agent.build_request_data.
  destruct (py_getitem (JDict entries) "origin") as [o | ];
    cbn [and_then]; [ | reflexivity].
  destruct (py_getitem (JDict entries) "destination") as [d | ];
    cbn [and_then]; [ | reflexivity].
  rewrite Hc. cbn [and_then].
  destruct (py_getitem o "zip"); cbn [and_then]; [ | reflexivity].
  destruct (py_getitem d "zip"); cbn [and_then]; [ | reflexivity].
  destruct (py_getitem (JDict cargo) "weight_lbs"); cbn [and_then];
    [ | reflexivity].
  destruct (py_getitem (JDict cargo) "pieces"); cbn [and_then];
    [ | reflexivity].
  rewrite Hd. reflexivity.
Qed.

(** Every run of [process_email] ends in one of three ways. *)
Lemma process_email_shapes (email : email_handler.Email) :
  let sender := email_handler.email_from email in
  let subject := email_handler.email_subject email in
  let result :=
    agent.process_email extract_shipment_details requests_post
      generate_quote_pdf create_reply_body send_reply today json_str email in
  (exists message,
      result = (false, [agent.SentErrorReply sender subject message])) \/
  (exists body pdf_path,
      send_reply sender ("Re: " ++ subject) body pdf_path = false /\
      result = (false,
                [agent.SentReply sender ("Re: " ++ subject) body pdf_path])) \/
  (exists body pdf_path,
      send_reply sender ("Re: " ++ subject) body pdf_path = true /\
      result = (true,
                [agent.SentReply sender ("Re: " ++ subject) body pdf_path;
                 agent.MarkedAsRead (email_handler.email_id email)])).
Proof.
  intros sender subject result. unfold result, agent.process_email.
  destruct (agent.process_email_steps _ _ _ _ _ _ _ email) as [r | e] eqn:E;
    [ | left; eexists; reflexivity].
  unfold agent.process_email_steps in E. fold sender subject in E.
  destruct (extract_shipment_details _) as [data | ];
    [ | injection E as <-; left; eexists; reflexivity].
  destruct (truthy data); cbn [negb] in E;
    [ | injection E as <-; left; eexists; reflexivity].
  destruct (llm_extractor.validate_extraction data) as [[is_valid msg] | ];
    cbn [and_then] in E; [ | discriminate E].
  destruct is_valid; cbn [negb] in E;
    [ | injection E as <-; left; eexists; reflexivity].
  destruct (py_getitem data "origin") as [o | ]; cbn [and_then] in E;
    [ | discriminate E].
  destruct (py_getitem o "city"); cbn [and_then] in E; [ | discriminate E].
  destruct (py_getitem data "destination") as [d | ]; cbn [and_then] in E;
    [ | discriminate E].
  destruct (py_getitem d "city"); cbn [and_then] in E; [ | discriminate E].
  destruct (agent.call_quote_api requests_post today data) as [q | ];
    [ | injection E as <-; left; eexists; reflexivity].
  destruct (truthy q); cbn [negb] in E;
    [ | injection E as <-; left; eexists; reflexivity].
  destruct (py_getitem q "total_cost"); cbn [and_then] in E;
    [ | discriminate E].
  destruct (py_getitem q "quote_id") as [quote_id | ]; cbn [and_then] in E;
    [ | discriminate E].
  destruct (generate_quote_pdf q data _); cbn [and_then] in E;
    [ | discriminate E].
  destruct (create_reply_body q data) as [reply_body | ];
    cbn [and_then] in E; [ | discriminate E].
  destruct (send_reply sender _ reply_body _) eqn:Hsent;
    injection E as <-; right; [right | left];
    do 2 eexists; split; [exact Hsent | reflexivity | exact Hsent | reflexivity].
Qed.

(** X23. [process_email] reports success exactly when the reply went out,
    and marks the message as read exactly then: after any failure the
    message stays unread. *)
Theorem process_email_marks_read_iff_replied (email : email_handler.Email) :
  let result :=
    agent.process_email extract_shipment_details requests_post
      generate_quote_pdf create_reply_body send_reply today json_str email in
  (fst result = true <->
   In (agent.MarkedAsRead (email_handler.email_id email)) (snd result)) /\
  (fst result = true <->
   exists body pdf_path,
     send_reply (email_handler.email_from email)
                ("Re: " ++ email_handler.email_subject email) body pdf_path
     = true /\
     In (agent.SentReply (email_handler.email_from email)
                         ("Re: " ++ email_handler.email_subject email)
                         body pdf_path) (snd result)) /\
  (fst result = false ->
   forall id, ~ In (agent.MarkedAsRead id) (snd result)).
Proof.
  intros result.
  destruct (process_email_shapes email)
    as [[message H] | [(body & pdf & Hsent & H) | (body & pdf & Hsent & H)]];
    fold result in H; rewrite H; cbn [fst snd].
  - split; [ | split].
    + split; [discriminate | ]. intros [Hin | []]. discriminate Hin.
    + split; [discriminate | ].
      intros (b & p & _ & [Hin | []]). discriminate Hin.
    + intros _ id [Hin | []]. discriminate Hin.
  - split; [ | split].
    + split; [discriminate | ]. intros [Hin | []]. discriminate Hin.
    + split; [discriminate | ].
      intros (b & p & Hs & [Hin | []]). injection Hin as <- <-. congruence.
    + intros _ id [Hin | []]. discriminate Hin.
  - split; [ | split].
    + split; [ | reflexivity]. intros _. right. left. reflexivity.
    + split; [ | reflexivity]. intros _. exists body, pdf.
      split; [exact Hsent | left; reflexivity].
    + discriminate.
Qed.

(** X24. Every run of [process_email] attempts exactly one message, to
    the sender of the email: the reply or one error notice, never both
    and never none. *)
Theorem process_email_sends_one_message (email : email_handler.Email) :
  let events :=
    snd (agent.process_email extract_shipment_details requests_post
           generate_quote_pdf create_reply_body send_reply today json_str
           email) in
  exists message rest,
    events = message :: rest /\
    event_recipient message = Some (email_handler.email_from email) /\
    (rest = [] \/ rest = [agent.MarkedAsRead (email_handler.email_id email)]).
Proof.
  intros events. unfold events.
  destruct (process_email_shapes email)
    as [[message H] | [(body & pdf & _ & H) | (body & pdf & _ & H)]];
    rewrite H; cbn [snd]; do 2 eexists;
    (split; [reflexivity | split; [reflexivity | ]]); auto.
Qed.

(** X25. When the check of the extraction returns a message, that message
    is what the sender is told; when the check raises, the sender gets
    the notice of an unexpected error.  Neither the quote API nor the
    mailbox is touched. *)
Theorem process_email_reports_failed_check
        (email : email_handler.Email) (data : json) :
  extract_shipment_details (email_handler.email_body email) = Some data ->
  truthy data = true ->
  let sender := email_handler.email_from email in
  let subject := email_handler.email_subject email in
  let result :=
    agent.process_email extract_shipment_details requests_post
      generate_quote_pdf create_reply_body send_reply today json_str email in
  (forall message,
      llm_extractor.validate_extraction data = Return (false, message) ->
      result = (false, [agent.SentErrorReply sender subject message])) /\
  (forall e,
      llm_extractor.validate_extraction data = Throw e ->
      result = (false, [agent.SentErrorReply sender subject
                                             agent.unexpected_error_message])).
Proof.
  intros Hdata Htruthy sender subject result.
  unfold result, agent.process_email, agent.process_email_steps.
  rewrite Hdata, Htruthy. cbn [negb].
  split; intros x Hcheck; rewrite Hcheck; reflexivity.
Qed.

End AgentProperties.

Lemma call_quote_api_posts_extracted_fields_witness :
  agent.call_quote_api
    (fun request_data =>
       agent.PostResponse 200
         (Some (Json.JDict [("quote_id", Json.JStr "QT-20240115-093000")])))
    "2024-01-15" sample_shipment
  = Some (Json.JDict [("quote_id", Json.JStr "QT-20240115-093000")]).
Proof.
  unfold sample_shipment.
  erewrite call_quote_api_posts_extracted_fields by reflexivity.
  reflexivity.
Defined.

Lemma call_quote_api_without_dimensions_witness :
  agent.call_quote_api
    (fun request_data =>
       agent.PostResponse 200
         (Some (Json.JDict [("quote_id", Json.JStr "QT-20240115-093000")])))
    "2024-01-15"
    (Json.JDict
       [("origin", Json.JDict [("zip", Json.JStr "90021")]);
        ("destination", Json.JDict [("zip", Json.JStr "60601")]);
        ("cargo", Json.JDict [("weight_lbs", Json.JNum 800);
                              ("pieces", Json.JNum 2)])])
  = None.
Proof.
  apply (call_quote_api_without_dimensions _ "2024-01-15" _
           [("weight_lbs", Json.JNum 800); ("pieces", Json.JNum 2)]);
    reflexivity.
Defined.

Lemma process_email_reports_failed_check_witness :
  agent.process_email
    (fun body => Some (Json.JDict [("cargo", Json.JNull)]))
    (fun request_data => agent.PostFailed)
    (fun quote shipment path => Json.Return tt)
    (fun quote shipment => Json.Return "Your quote is attached.")
    (fun to_email subject body pdf_path => true)
    "2024-01-15"
    (fun value => "QT-20240115-093000")
    (email_handler.mkEmail "17" "ann@example.com" "Ann" "Freight quote"
                           "Please quote two pallets.")
  = (false,
     [agent.SentErrorReply "ann@example.com" "Freight quote"
                           "Missing origin zip code"]).
Proof.
  apply (process_email_reports_failed_check
           (fun body => Some (Json.JDict [("cargo", Json.JNull)]))
           (fun request_data => agent.PostFailed)
           (fun quote shipment path => Json.Return tt)
           (fun quote shipment => Json.Return "Your quote is attached.")
           (fun to_email subject body pdf_path => true)
           "2024-01-15"
           (fun value => "QT-20240115-093000")
           (email_handler.mkEmail "17" "ann@example.com" "Ann" "Freight quote"
                                  "Please quote two pallets.")
           (Json.JDict [("cargo", Json.JNull)]) eq_refl eq_refl).
  reflexivity.
Defined.
